(** * EthicalAIditor LLM API: readiness coordinator and request handlers

  A shallow embedding of [llm-api/app.py] (the serverless variant) and
  [llm-api/vm-setup/app.py] (the VM variant).

  - Python [str] values are sequences of Unicode code points.
  - Parsed JSON bodies are a tagged union; Python's dynamic operators on
    them ([in], [\[\]], [.get], [>], slicing, truthiness) are partial
    functions that raise.
  - The module-level globals [model], [tokenizer], [model_loading] are a
    shared store; request threads and the background loader are program
    counters over the source lines, interleaved by a schedule.
  - The tokenizer and the model of the external library are parameters. *)

From Stdlib Require Import String Ascii List ZArith NArith Bool Lia.
Import ListNotations.

Set Implicit Arguments.

(* ================================================================== *)
(** ** Python strings *)

Module PyStr.

(** A Python [str]: a sequence of code points. *)
Definition char := N.
Definition pystr := list char.

(** An ASCII literal of the source as a [pystr]. *)
Definition lit (s : string) : pystr :=
  map N_of_ascii (list_ascii_of_string s).

Definition nl : char := 10%N.
Definition dot : char := 46%N.

Fixpoint eqb (a b : pystr) : bool :=
  match a, b with
  | [], [] => true
  | x :: a', y :: b' => N.eqb x y && eqb a' b'
  | _, _ => false
  end.

(** [s.startswith(p)] *)
Fixpoint startswith (p s : pystr) : bool :=
  match p, s with
  | [], _ => true
  | x :: p', y :: s' => N.eqb x y && startswith p' s'
  | _ :: _, [] => false
  end.

(** [p in s] for two strings: [p] occurs in [s] as a contiguous run. *)
Fixpoint contains (p s : pystr) : bool :=
  startswith p s ||
  match s with
  | [] => false
  | _ :: s' => contains p s'
  end.

(** [s[:n]] and [s[n:]] for a non-negative [n]. *)
Definition slice_to (n : nat) (s : pystr) : pystr := firstn n s.
Definition slice_from (n : nat) (s : pystr) : pystr := skipn n s.

(** [s[-n:]] for a positive [n]: the last [n] characters, the whole string
    when it is shorter. *)
Definition slice_last (n : nat) (s : pystr) : pystr :=
  skipn (length s - n) s.

(** The characters [str.isspace] accepts, which [str.strip()] removes. *)
Definition isspace (c : char) : bool :=
  ((9 <=? c) && (c <=? 13) || (28 <=? c) && (c <=? 32)
   || (c =? 133) || (c =? 160) || (c =? 5760)
   || (8192 <=? c) && (c <=? 8202)
   || (c =? 8232) || (c =? 8233) || (c =? 8239) || (c =? 8287)
   || (c =? 12288))%N.

Fixpoint lstrip (s : pystr) : pystr :=
  match s with
  | [] => []
  | c :: s' => if isspace c then lstrip s' else s
  end.

Definition rstrip (s : pystr) : pystr := rev (lstrip (rev s)).

(** [s.strip()] *)
Definition strip (s : pystr) : pystr := rstrip (lstrip s).

(** [sep.join(parts)] *)
Fixpoint join (sep : pystr) (parts : list pystr) : pystr :=
  match parts with
  | [] => []
  | [p] => p
  | p :: rest => p ++ sep ++ join sep rest
  end.

End PyStr.

Import PyStr.

(* ================================================================== *)
(** ** Exceptions and call results *)

Inductive exn : Type :=
| TypeError
| AttributeError
| KeyError
| BadRequest            (* werkzeug: the body is not valid JSON *)
| UnsupportedMediaType  (* werkzeug: the content type is not JSON *)
| LibraryError (msg : pystr).  (* raised inside an external library call *)

(** The outcome of a Python call: a value or a raised exception. *)
Inductive call_result (A : Type) : Type :=
| Returns (a : A)
| Raises (e : exn).

Arguments Returns {A} a.
Arguments Raises {A} e.

(* ================================================================== *)
(** ** Parsed JSON values and Python's operators on them *)

Module Json.

(** A Python [float] obtained from a JSON number: [FFin m e] is the finite
    value [m * 2^e]. *)
Inductive pyfloat : Type :=
| FNan
| FInf (negative : bool)
| FFin (m e : Z).

(** What [request.get_json()] / [request.json] yields. A [JObj] is a Python
    dict, looked up by its first binding of a key. *)
#[warnings="-register-all"] Inductive json : Type :=
| JNull
| JBool (b : bool)
| JInt (z : Z)
| JFloat (f : pyfloat)
| JStr (s : pystr)
| JArr (l : list json)
| JObj (kv : list (pystr * json)).

(** Python truthiness, as tested by [if x] and [not x]. *)
Definition truthy (v : json) : bool :=
  match v with
  | JNull => false
  | JBool b => b
  | JInt z => negb (z =? 0)%Z
  | JFloat FNan => true
  | JFloat (FInf _) => true
  | JFloat (FFin m _) => negb (m =? 0)%Z
  | JStr s => match s with [] => false | _ => true end
  | JArr l => match l with [] => false | _ => true end
  | JObj kv => match kv with [] => false | _ => true end
  end.

Fixpoint lookup (k : pystr) (kv : list (pystr * json)) : option json :=
  match kv with
  | [] => None
  | (k', v) :: rest => if PyStr.eqb k k' then Some v else lookup k rest
  end.

(** [x == k] for a string literal [k]. *)
Definition eq_str (x : json) (k : pystr) : bool :=
  match x with
  | JStr s => PyStr.eqb s k
  | _ => false
  end.

(** [k in data] for a string literal [k]: key membership on a dict, element
    membership on a list, substring test on a string, [TypeError] on
    anything else. *)
Definition py_in (k : pystr) (data : json) : call_result bool :=
  match data with
  | JObj kv => Returns (match lookup k kv with Some _ => true | None => false end)
  | JArr l => Returns (existsb (fun x => eq_str x k) l)
  | JStr s => Returns (PyStr.contains k s)
  | _ => Raises TypeError
  end.

(** [data[k]] for a string literal [k]. *)
Definition py_getitem (data : json) (k : pystr) : call_result json :=
  match data with
  | JObj kv => match lookup k kv with
               | Some v => Returns v
               | None => Raises KeyError
               end
  | _ => Raises TypeError
  end.

(** [data.get(k, default)]: only a dict has the method. *)
Definition py_get (data : json) (k : pystr) (default : json)
  : call_result json :=
  match data with
  | JObj kv => Returns (match lookup k kv with
                        | Some v => v
                        | None => default
                        end)
  | _ => Raises AttributeError
  end.

(** [f > n] for a float [f] and an int [n]: Python compares exactly. *)
Definition float_gt_int (f : pyfloat) (n : Z) : bool :=
  match f with
  | FNan => false
  | FInf negative => negb negative
  | FFin m e =>
      if (0 <=? e)%Z then (n <? m * 2 ^ e)%Z
      else (n * 2 ^ (- e) <? m)%Z
  end.

(** [v > n] for an int literal [n]. *)
Definition py_gt_int (v : json) (n : Z) : call_result bool :=
  match v with
  | JInt z => Returns (n <? z)%Z
  | JBool b => Returns (n <? (if b then 1 else 0))%Z
  | JFloat f => Returns (float_gt_int f n)
  | _ => Raises TypeError
  end.

(** [len(v)] *)
Definition py_len (v : json) : call_result nat :=
  match v with
  | JStr s => Returns (length s)
  | JArr l => Returns (length l)
  | JObj kv => Returns (length kv)
  | _ => Raises TypeError
  end.

(** [v[:n]]: strings and lists can be sliced. *)
Definition py_slice_to (n : nat) (v : json) : call_result json :=
  match v with
  | JStr s => Returns (JStr (slice_to n s))
  | JArr l => Returns (JArr (firstn n l))
  | JObj _ => Raises KeyError
  | _ => Raises TypeError
  end.

(** [for m in v]: the elements of a list, the keys of a dict, the
    characters of a string. *)
Definition py_iter (v : json) : call_result (list json) :=
  match v with
  | JArr l => Returns l
  | JObj kv => Returns (map (fun p => JStr (fst p)) kv)
  | JStr s => Returns (map (fun c => JStr [c]) s)
  | _ => Raises TypeError
  end.

End Json.

Import Json.

(* ================================================================== *)
(** ** The serverless variant: [llm-api/app.py] *)

Module Serverless.

Definition MODEL_NAME : pystr := lit "PleIAs/Pleias-350m-Preview".

(** The process environment as the module reads it. [EAGER_LOAD] is the
    flag as line 41 computes it. *)
Record environ : Type := {
  HF_TOKEN : option pystr;
  HUGGINGFACE_HUB_TOKEN : option pystr;
  PORT : option pystr;
  MODEL_CACHE_DIR : option pystr;
  EAGER_LOAD : bool
}.

(** [a or b] on two results of [os.environ.get]. *)
Definition py_or (a b : option pystr) : option pystr :=
  match a with
  | Some (_ :: _) => a
  | _ => b
  end.

(** [os.environ.get('HF_TOKEN') or os.environ.get('HUGGINGFACE_HUB_TOKEN')] *)
Definition hf_token (env : environ) : option pystr :=
  py_or (HF_TOKEN env) (HUGGINGFACE_HUB_TOKEN env).

Definition str_truthy (s : option pystr) : bool :=
  match s with
  | Some (_ :: _) => true
  | _ => false
  end.

(** *** The shared store *)

(** An object the library built, named by its construction index. *)
Definition handle := nat.

(** The three module globals, and three counters that are not in the
    source: how often [load_model] was entered and how many tokenizer and
    model objects [from_pretrained] has built. *)
Record world : Type := {
  model : option handle;
  tokenizer : option handle;
  model_loading : bool;
  load_calls : nat;
  tokenizers_built : nat;
  models_built : nat
}.

Definition cold : world :=
  {| model := None; tokenizer := None; model_loading := false;
     load_calls := 0; tokenizers_built := 0; models_built := 0 |}.

(** *** Threads *)

Inductive caller : Type := FromGetModel | FromBackground.

(** The frame of one [load_model] call. [load_model] declares only
    [model] and [tokenizer] global (line 62), so its assignments to
    [model_loading] (lines 94 and 97) bind a local of this frame. *)
Record frame : Type := {
  called_from : caller;
  local_model_loading : option bool
}.

Definition enter_load (c : caller) : frame :=
  {| called_from := c; local_model_loading := None |}.

Definition handles : Type := option handle * option handle.

(** Program counters: the source line a thread executes next. *)
Inductive pc : Type :=
| GetModel_entry                                  (* line 50 *)
| GetModel_check_loading                          (* line 51 *)
| GetModel_wait                                   (* line 54, model_loading *)
| GetModel_wait_model                             (* line 54, model is None *)
| GetModel_sleep                                  (* line 55 *)
| GetModel_return                                 (* line 58, model *)
| GetModel_return_tokenizer (m : option handle)   (* line 58, tokenizer *)
| Load_entry (fr : frame)                         (* lines 63-69 *)
| Load_login (fr : frame)                         (* lines 70-72 *)
| Load_tokenizer (fr : frame)                     (* lines 75-80 *)
| Load_model (fr : frame)                         (* lines 83-91 *)
| Load_except (fr : frame) (e : exn)              (* lines 92-95 *)
| Load_finally (fr : frame) (pending : option exn) (* lines 96-97 *)
| Background_entry                                (* line 102 *)
| Background_except (e : exn)                     (* lines 105-106 *)
| Background_finished
| Finished (r : call_result handles).             (* get_model is over *)

(** What the library calls of one [load_model] step do: [None] returns,
    [Some e] raises [e]. *)
Record load_outcome : Type := {
  login_raises : option exn;
  tokenizer_raises : option exn;
  model_raises : option exn
}.

Definition all_succeed : load_outcome :=
  {| login_raises := None; tokenizer_raises := None; model_raises := None |}.

Definition set_local (fr : frame) (b : bool) : frame :=
  {| called_from := called_from fr; local_model_loading := Some b |}.

(** Leaving [load_model]: back in the caller, by return or by raise. *)
Definition leave_load (fr : frame) (pending : option exn) : pc :=
  match called_from fr, pending with
  | FromGetModel, None => GetModel_return
  | FromGetModel, Some e => Finished (Raises e)
  | FromBackground, None => Background_finished
  | FromBackground, Some e => Background_except e
  end.

(** One atomic step of a thread: it reads or writes one global at most, so
    the two operands of the loop condition on line 54 and the two reads of
    line 58 are steps of their own. [None]: the thread is over. *)
Definition thread_step (env : environ) (lo : load_outcome)
           (w : world) (p : pc) : option (world * pc) :=
  match p with
  | GetModel_entry =>
      Some (w, match model w with
               | None => GetModel_check_loading
               | Some _ => GetModel_return
               end)
  | GetModel_check_loading =>
      if model_loading w then Some (w, GetModel_wait)
      else Some (w, Load_entry (enter_load FromGetModel))
  | GetModel_wait =>
      (* while model_loading and ... *)
      Some (w, if model_loading w then GetModel_wait_model
               else GetModel_return)
  | GetModel_wait_model =>
      (* ... and model is None *)
      Some (w, match model w with
               | None => GetModel_sleep
               | Some _ => GetModel_return
               end)
  | GetModel_sleep => Some (w, GetModel_wait)
  | GetModel_return => Some (w, GetModel_return_tokenizer (model w))
  | GetModel_return_tokenizer m =>
      Some (w, Finished (Returns (m, tokenizer w)))
  | Load_entry fr =>
      let w' := {| model := model w; tokenizer := tokenizer w;
                   model_loading := model_loading w;
                   load_calls := S (load_calls w);
                   tokenizers_built := tokenizers_built w;
                   models_built := models_built w |} in
      Some (w', if str_truthy (hf_token env) then Load_login fr
                else Load_tokenizer fr)
  | Load_login fr =>
      Some (w, match login_raises lo with
               | None => Load_tokenizer fr
               | Some e => Load_except fr e
               end)
  | Load_tokenizer fr =>
      match tokenizer_raises lo with
      | None =>
          Some ({| model := model w;
                   tokenizer := Some (tokenizers_built w);
                   model_loading := model_loading w;
                   load_calls := load_calls w;
                   tokenizers_built := S (tokenizers_built w);
                   models_built := models_built w |},
                Load_model fr)
      | Some e => Some (w, Load_except fr e)
      end
  | Load_model fr =>
      match model_raises lo with
      | None =>
          Some ({| model := Some (models_built w);
                   tokenizer := tokenizer w;
                   model_loading := model_loading w;
                   load_calls := load_calls w;
                   tokenizers_built := tokenizers_built w;
                   models_built := S (models_built w) |},
                Load_finally fr None)
      | Some e => Some (w, Load_except fr e)
      end
  | Load_except fr e =>
      (* model_loading = False binds the local; raise *)
      Some (w, Load_finally (set_local fr false) (Some e))
  | Load_finally fr pending =>
      (* model_loading = False binds the local again *)
      Some (w, leave_load (set_local fr false) pending)
  | Background_entry =>
      (* global model_loading; model_loading = True *)
      Some ({| model := model w; tokenizer := tokenizer w;
               model_loading := true;
               load_calls := load_calls w;
               tokenizers_built := tokenizers_built w;
               models_built := models_built w |},
            Load_entry (enter_load FromBackground))
  | Background_except e => Some (w, Background_finished)
  | Background_finished => None
  | Finished _ => None
  end.

(** *** The process: the store and its threads under a schedule *)

Record config : Type := {
  shared : world;
  threads : list pc
}.

Fixpoint set_nth (i : nat) (p : pc) (l : list pc) {struct l} : list pc :=
  match l, i with
  | [], _ => []
  | _ :: rest, O => p :: rest
  | q :: rest, S j => q :: set_nth j p rest
  end.

(** A schedule entry: which thread moves, and what the library does if the
    step calls it. *)
Definition choice : Type := (nat * load_outcome)%type.

Definition sys_step (env : environ) (ch : choice) (c : config) : config :=
  match nth_error (threads c) (fst ch) with
  | None => c
  | Some p =>
      match thread_step env (snd ch) (shared c) p with
      | None => c
      | Some (w', p') =>
          {| shared := w'; threads := set_nth (fst ch) p' (threads c) |}
      end
  end.

Definition run (env : environ) (sched : list choice) (c : config) : config :=
  fold_left (fun c ch => sys_step env ch c) sched c.

(** Process start with [n] requests to come: lines 109-112 start the
    background thread when [EAGER_LOAD] is set. A request thread that has
    not moved yet is a request that has not arrived yet. *)
Definition startup (env : environ) (n : nat) : config :=
  {| shared := cold;
     threads := (if EAGER_LOAD env then [Background_entry] else [])
                ++ repeat GetModel_entry n |}.

(** The background thread has executed line 102 and [n] requests are
    still to come. *)
Definition background_started (n : nat) : config :=
  {| shared := {| model := None; tokenizer := None; model_loading := true;
                  load_calls := 0; tokenizers_built := 0;
                  models_built := 0 |};
     threads := Load_entry (enter_load FromBackground)
                :: repeat GetModel_entry n |}.

(** How many threads are inside [load_model]. *)
Definition in_load (p : pc) : bool :=
  match p with
  | Load_entry _ | Load_login _ | Load_tokenizer _ | Load_model _
  | Load_except _ _ | Load_finally _ _ => true
  | _ => false
  end.

Definition loads_in_flight (c : config) : nat :=
  List.length (filter in_load (threads c)).

(** One thread calling [get_model()] with nobody else running. [None]:
    out of fuel. *)
Fixpoint run_thread (env : environ) (lo : load_outcome) (fuel : nat)
         (w : world) (p : pc) : option (call_result handles * world) :=
  match p with
  | Finished r => Some (r, w)
  | _ =>
      match fuel with
      | O => None
      | S fuel' =>
          match thread_step env lo w p with
          | None => None
          | Some (w', p') => run_thread env lo fuel' w' p'
          end
      end
  end.

Definition get_model (env : environ) (lo : load_outcome) (fuel : nat)
           (w : world) : option (call_result handles * world) :=
  run_thread env lo fuel w GetModel_entry.

(** [load_model_background()] run to its end on its own thread. *)
Definition load_model_background (env : environ) (lo : load_outcome)
           (w : world) : world :=
  shared (run env (repeat (0, lo) 8)
              {| shared := w; threads := [Background_entry] |}).

End Serverless.

(* ================================================================== *)
(** ** Handler computations: exceptions and the calls into the library *)

Module Handler.

Definition handle := Serverless.handle.

(** A call into the loaded tokenizer or model, in the order it is made. *)
Inductive event : Type :=
| Tokenize (h : handle) (text : json)
| Generate (h : handle) (max_length temperature : json)
| Decode (h : handle).

Definition is_generate (ev : event) : bool :=
  match ev with
  | Generate _ _ _ => true
  | _ => false
  end.

(** A handler body: it may raise, and it appends to the list of library
    calls made so far. *)
Definition comp (A : Type) : Type :=
  list event -> call_result A * list event.

Definition ret {A : Type} (a : A) : comp A := fun tr => (Returns a, tr).

Definition raise {A : Type} (e : exn) : comp A := fun tr => (Raises e, tr).

Definition lift {A : Type} (r : call_result A) : comp A := fun tr => (r, tr).

Definition emit (ev : event) : comp unit :=
  fun tr => (Returns tt, tr ++ [ev]).

Definition bind {A B : Type} (m : comp A) (k : A -> comp B) : comp B :=
  fun tr =>
    match m tr with
    | (Returns a, tr') => k a tr'
    | (Raises e, tr') => (Raises e, tr')
    end.

(** [try: m except Exception as e: return h e] *)
Definition try_except {A : Type} (m : comp A) (h : exn -> A)
  : A * list event :=
  match m [] with
  | (Returns a, tr) => (a, tr)
  | (Raises e, tr) => (h e, tr)
  end.

Fixpoint map_result {A B : Type} (f : A -> call_result B) (l : list A)
  : call_result (list B) :=
  match l with
  | [] => Returns []
  | x :: rest =>
      match f x with
      | Raises e => Raises e
      | Returns y =>
          match map_result f rest with
          | Raises e => Raises e
          | Returns ys => Returns (y :: ys)
          end
      end
  end.

End Handler.

Import Handler.

Declare Scope comp_scope.
Delimit Scope comp_scope with comp.
Notation "x <- m ;; k" := (bind m (fun x => k))
  (at level 61, m at next level, right associativity) : comp_scope.
Notation "' pat <- m ;; k" := (bind m (fun x => match x with pat => k end))
  (at level 61, pat pattern, m at next level, right associativity) : comp_scope.

(** The external library: what the loaded tokenizer and model compute. *)
Record library : Type := {
  tokens : Type;
  outputs : Type;
  (* tokenizer(text, return_tensors="pt", ...) *)
  tokenizer_encode : handle -> json -> call_result tokens;
  (* model.generate(input_ids, <length bound>, temperature, do_sample=True) *)
  model_generate : handle -> tokens -> json -> json -> call_result outputs;
  (* tokenizer.decode(outputs[0], skip_special_tokens=True) *)
  tokenizer_decode : handle -> outputs -> call_result pystr;
  (* str(v), as an f-string formats a value that is not a str *)
  py_str : json -> pystr
}.

Module Calls.

Section WithLibrary.
Variable lib : library.

(** Calling [current_tokenizer(...)]: [None] is not callable. *)
Definition call_tokenizer (t : option handle) (text : json)
  : comp (tokens lib) :=
  match t with
  | None => raise TypeError
  | Some h => (_ <- emit (Tokenize h text) ;; lift (tokenizer_encode lib h text))%comp
  end.

(** Calling [current_model.generate(...)]: [None] has no such attribute. *)
Definition call_generate (m : option handle) (ids : tokens lib)
           (bound temperature : json) : comp (outputs lib) :=
  match m with
  | None => raise AttributeError
  | Some h =>
      (_ <- emit (Generate h bound temperature) ;;
       lift (model_generate lib h ids bound temperature))%comp
  end.

Definition call_decode (t : option handle) (out : outputs lib) : comp pystr :=
  match t with
  | None => raise AttributeError
  | Some h => (_ <- emit (Decode h) ;; lift (tokenizer_decode lib h out))%comp
  end.

(** A value inside an f-string. *)
Definition py_format (v : json) : pystr :=
  match v with
  | JStr s => s
  | _ => py_str lib v
  end.

End WithLibrary.

End Calls.

Import Calls.

(* ================================================================== *)
(** ** The routes of the serverless variant *)

Module ServerlessApp.

Import Serverless.

(** The JSON bodies the routes build with [jsonify]. *)
Inductive body : Type :=
| Empty
| Error (error : pystr)
| InternalError (details : exn)
| Generated (prompt : json) (generated_text : pystr) (model : pystr)
| ChatText (text : pystr) (model : pystr)
| Health (model : pystr) (model_loaded : bool)
| DebugEnv (hf_token_configured : bool) (hf_token_masked : pystr)
           (port : pystr).

Record response : Type := {
  status : nat;
  content : body
}.

Definition ok (b : body) : response := {| status := 200; content := b |}.

Definition internal_error (e : exn) : response :=
  {| status := 500; content := InternalError e |}.

(** [/health] *)
Definition health_check (w : world) : response :=
  ok (Health MODEL_NAME (match model w with Some _ => true | None => false end)).

(** [f"{hf_token[:4]}...{hf_token[-4:]}"] *)
Definition mask (t : pystr) : pystr :=
  slice_to 4 t ++ lit "..." ++ slice_last 4 t.

(** [/debug/env] *)
Definition debug_env (env : environ) : response :=
  let t := hf_token env in
  let masked := match t with
                | Some (c :: s) => mask (c :: s)
                | _ => lit "NOT SET"
                end in
  ok (DebugEnv (match t with Some _ => true | None => false end)
               masked
               (match PORT env with Some p => p | None => lit "not set" end)).

(** 0.7 as a binary64 value. *)
Definition default_temperature : json := JFloat (FFin 3152519739159347 (-52)).

Section WithLibrary.
Variable lib : library.

(** The body of the [try] of [generate_text], lines 142-184. [acq] is what
    the thread's [get_model()] call came to, [req] what
    [request.get_json()] came to. *)
Definition generate_text_body (acq : call_result handles)
           (req : call_result json) : comp response :=
  ('(current_model, current_tokenizer) <- lift acq ;;
   data <- lift req ;;
   missing <- (if negb (truthy data) then ret true
               else (present <- lift (py_in (lit "prompt") data) ;;
                     ret (negb present))) ;;
   if (missing : bool) then
     ret {| status := 400;
            content := Error (lit "Missing required field: prompt") |}
   else
     prompt <- lift (py_getitem data (lit "prompt")) ;;
     max_length <- lift (py_get data (lit "max_length") (JInt 100)) ;;
     temperature <- lift (py_get data (lit "temperature") default_temperature) ;;
     too_long <- lift (py_gt_int max_length 500) ;;
     if (too_long : bool) then
       ret {| status := 400;
              content := Error (lit "max_length cannot exceed 500 tokens") |}
     else
       _ <- lift (py_slice_to 50 prompt) ;;
       inputs <- call_tokenizer lib current_tokenizer prompt ;;
       outs <- call_generate lib current_model inputs max_length temperature ;;
       generated_text <- call_decode lib current_tokenizer outs ;;
       ret (ok (Generated prompt generated_text MODEL_NAME)))%comp.

(** [/generate] *)
Definition generate_text (acq : call_result handles) (req : call_result json)
  : response * list event :=
  try_except (generate_text_body acq req) internal_error.

Definition SYSTEM_PROMPT : pystr :=
  lit "You are an ethical AI writing assistant trained on legally licensed materials.".

Definition context_header : pystr :=
  [nl; nl] ++ lit "Manuscript context:" ++ [nl].

(** Lines 207-209. *)
Definition system_prompt (manuscript_context : json) : call_result pystr :=
  if truthy manuscript_context then
    match py_slice_to 2000 manuscript_context with
    | Returns excerpt =>
        Returns (SYSTEM_PROMPT ++ context_header ++ py_format lib excerpt)
    | Raises e => Raises e
    end
  else Returns SYSTEM_PROMPT.

(** One element of the comprehension of lines 212-215. *)
Definition message_line (m : json) : call_result pystr :=
  match py_get m (lit "role") JNull with
  | Raises e => Raises e
  | Returns role =>
      match py_get m (lit "content") (JStr []) with
      | Raises e => Raises e
      | Returns content =>
          let user := eq_str role (lit "user") in
          Returns ((if user then lit "[INST]" else [])
                   ++ lit " " ++ py_format lib content ++ lit " "
                   ++ (if user then lit "[/INST]" else []))
      end
  end.

Definition message_prompt (messages : json) : call_result pystr :=
  match py_iter messages with
  | Raises e => Raises e
  | Returns ms =>
      match map_result message_line ms with
      | Raises e => Raises e
      | Returns lines => Returns (join [nl] lines)
      end
  end.

(** Line 217. *)
Definition full_prompt (data : json) : call_result pystr :=
  match py_get data (lit "messages") (JArr []) with
  | Raises e => Raises e
  | Returns messages =>
      match py_get data (lit "manuscriptContext") (JStr []) with
      | Raises e => Raises e
      | Returns manuscript_context =>
          match system_prompt manuscript_context with
          | Raises e => Raises e
          | Returns sp =>
              match message_prompt messages with
              | Raises e => Raises e
              | Returns mp => Returns (sp ++ [nl; nl] ++ mp)
              end
          end
      end
  end.

(** Lines 238-239: remove the prompt from the response if included. *)
Definition strip_prompt (prompt generated_text : pystr) : pystr :=
  if startswith prompt generated_text
  then strip (slice_from (List.length prompt) generated_text)
  else generated_text.

(** The body of the [try] of [chat], lines 200-244. *)
Definition chat_body (acq : call_result handles) (req : call_result json)
  : comp response :=
  ('(current_model, current_tokenizer) <- lift acq ;;
   data <- lift req ;;
   prompt <- lift (full_prompt data) ;;
   inputs <- call_tokenizer lib current_tokenizer (JStr prompt) ;;
   outs <- call_generate lib current_model inputs (JInt 500) default_temperature ;;
   generated_text <- call_decode lib current_tokenizer outs ;;
   ret (ok (ChatText (strip_prompt prompt generated_text) MODEL_NAME)))%comp.

(** [/chat] with POST; an OPTIONS request is answered on line 197 before
    [get_model()] is called. *)
Definition chat (acq : call_result handles) (req : call_result json)
  : response * list event :=
  try_except (chat_body acq req) internal_error.

Definition chat_options : response := {| status := 204; content := Empty |}.

(** A request served with no other thread running: [get_model()], then the
    rest of the handler. [None]: the handler is still waiting when the fuel
    is spent. *)
Definition serve (handler : call_result handles -> call_result json ->
                            response * list event)
           (env : environ) (lo : load_outcome) (fuel : nat) (w : world)
           (req : call_result json)
  : option (response * list event * world) :=
  match get_model env lo fuel w with
  | None => None
  | Some (acq, w') => Some (handler acq req, w')
  end.

End WithLibrary.

End ServerlessApp.

(* ================================================================== *)
(** ** The VM variant: [llm-api/vm-setup/app.py] *)

Module VM.

Definition MODEL_NAME : pystr := lit "PleIAs/Pleias-350m-Preview".
Definition DEPLOYMENT : pystr := lit "compute-engine-vm".

(** The two module globals. *)
Record world : Type := {
  model : option handle;
  tokenizer : option handle
}.

Definition cold : world := {| model := None; tokenizer := None |}.

(** [load_model()], called once on line 119 while the module is imported.
    An exception leaves the import, and the process, with the globals as
    they are at the raise. *)
Definition load_model (tokenizer_raises model_raises : option exn) (w : world)
  : call_result unit * world :=
  match tokenizer_raises with
  | Some e => (Raises e, w)
  | None =>
      let w1 := {| model := model w; tokenizer := Some 0 |} in
      match model_raises with
      | Some e => (Raises e, w1)
      | None => (Returns tt, {| model := Some 0; tokenizer := tokenizer w1 |})
      end
  end.

Inductive body : Type :=
| Error (error : pystr)
| Failure (error : exn)                       (* {"error": str(e)} *)
| Reply (response : pystr) (model deployment : pystr)
| Health (model_loaded : bool) (deployment : pystr)
| Unhandled (e : exn).                        (* the framework's error page *)

Record response : Type := {
  status : nat;
  content : body
}.

(** [/health] *)
Definition health (w : world) : response :=
  {| status := 200;
     content := Health (match model w with Some _ => true | None => false end)
                       DEPLOYMENT |}.

(** An exception that leaves the view function: the framework answers a
    werkzeug HTTP exception with its own code and anything else with 500. *)
Definition unhandled (e : exn) : response :=
  {| status := match e with
               | BadRequest => 400
               | UnsupportedMediaType => 415
               | _ => 500
               end;
     content := Unhandled e |}.

Section WithLibrary.
Variable lib : library.

(** The body of the [try] of [chat], lines 76-105. *)
Definition chat_try (w : world) (prompt max_tokens temperature : json)
  : comp response :=
  (inputs <- call_tokenizer lib (tokenizer w) prompt ;;
   outs <- call_generate lib (model w) inputs max_tokens temperature ;;
   generated_text <- call_decode lib (tokenizer w) outs ;;
   n <- lift (py_len prompt) ;;
   ret {| status := 200;
          content := Reply (strip (slice_from n generated_text))
                           MODEL_NAME DEPLOYMENT |})%comp.

(** [/chat]. Lines 67-70 are outside the [try]: what they raise reaches the
    framework. *)
Definition chat (w : world) (req : call_result json)
  : response * list event :=
  match model w, tokenizer w with
  | Some _, Some _ =>
      match req with
      | Raises e => (unhandled e, [])
      | Returns data =>
          match py_get data (lit "prompt") (JStr []) with
          | Raises e => (unhandled e, [])
          | Returns prompt =>
              match py_get data (lit "max_tokens") (JInt 200) with
              | Raises e => (unhandled e, [])
              | Returns max_tokens =>
                  match py_get data (lit "temperature")
                               ServerlessApp.default_temperature with
                  | Raises e => (unhandled e, [])
                  | Returns temperature =>
                      if negb (truthy prompt) then
                        ({| status := 400;
                            content := Error (lit "No prompt provided") |}, [])
                      else
                        try_except
                          (chat_try w prompt max_tokens temperature)
                          (fun e => {| status := 500; content := Failure e |})
                  end
              end
          end
      end
  | _, _ => ({| status := 503; content := Error (lit "Model not loaded") |}, [])
  end.

(** [/generate]: [return chat()]. *)
Definition generate (w : world) (req : call_result json)
  : response * list event :=
  chat w req.

End WithLibrary.

End VM.

(* ================================================================== *)
(** ** Test doubles for the library *)

Module Stubs.

(** A tokenizer that encodes a string as itself and a model that echoes its
    input [copies] times and then continues with [continuation]. *)
Definition echo_library (copies : nat) (continuation : pystr) : library :=
  {| tokens := pystr;
     outputs := pystr;
     tokenizer_encode := fun _ v => match v with
                                    | JStr s => Returns s
                                    | _ => Raises TypeError
                                    end;
     model_generate := fun _ ids _ _ =>
                         Returns (concat (repeat ids copies) ++ continuation);
     tokenizer_decode := fun _ out => Returns out;
     py_str := fun _ => lit "?" |}.

(** No credential, no port, lazy loading. *)
Definition bare_environ : Serverless.environ :=
  {| Serverless.HF_TOKEN := None;
     Serverless.HUGGINGFACE_HUB_TOKEN := None;
     Serverless.PORT := None;
     Serverless.MODEL_CACHE_DIR := None;
     Serverless.EAGER_LOAD := false |}.

Definition environ_with_token (t : pystr) (eager : bool) : Serverless.environ :=
  {| Serverless.HF_TOKEN := Some t;
     Serverless.HUGGINGFACE_HUB_TOKEN := None;
     Serverless.PORT := None;
     Serverless.MODEL_CACHE_DIR := None;
     Serverless.EAGER_LOAD := eager |}.

(** A load in which fetching the tokenizer fails. *)
Definition tokenizer_fails : Serverless.load_outcome :=
  {| Serverless.login_raises := None;
     Serverless.tokenizer_raises := Some (LibraryError (lit "fetch failed"));
     Serverless.model_raises := None |}.

(** A load in which fetching the model weights fails. *)
Definition model_fails : Serverless.load_outcome :=
  {| Serverless.login_raises := None;
     Serverless.tokenizer_raises := None;
     Serverless.model_raises := Some (LibraryError (lit "fetch failed")) |}.

End Stubs.

Import Stubs.

(* ================================================================== *)
(** * Properties *)

(** ** Strings *)

Section StringFacts.

Lemma eqb_refl (s : pystr) : PyStr.eqb s s = true.
Proof.
  induction s as [|c s IH]; simpl; [reflexivity|].
  now rewrite N.eqb_refl, IH.
Qed.

Lemma eqb_eq (a b : pystr) : PyStr.eqb a b = true <-> a = b.
Proof.
  split.
  - revert b; induction a as [|x a IH]; intros [|y b]; simpl; try discriminate.
    + reflexivity.
    + intros H. apply andb_true_iff in H as [Hxy Hab].
      apply N.eqb_eq in Hxy. now rewrite Hxy, (IH b Hab).
  - intros ->. apply eqb_refl.
Qed.

Lemma startswith_app (p r : pystr) : startswith p (p ++ r) = true.
Proof.
  induction p as [|c p IH]; simpl; [reflexivity|].
  now rewrite N.eqb_refl, IH.
Qed.

Lemma startswith_split (p s : pystr) :
  startswith p s = true -> s = p ++ skipn (List.length p) s.
Proof.
  revert s; induction p as [|c p IH]; intros s H; simpl in *.
  - reflexivity.
  - destruct s as [|d s]; [discriminate|].
    apply andb_true_iff in H as [Hcd Hps].
    apply N.eqb_eq in Hcd. subst d. simpl. f_equal. now apply IH.
Qed.

Lemma startswith_length (p s : pystr) :
  startswith p s = true -> List.length p <= List.length s.
Proof.
  intros H. rewrite (startswith_split p s H) at 1.
  rewrite length_app. lia.
Qed.

Lemma contains_split (p s : pystr) :
  contains p s = true -> exists a b, s = a ++ p ++ b.
Proof.
  induction s as [|c s IH]; simpl; intros H.
  - rewrite orb_false_r in H. exists [], (skipn (List.length p) []).
    simpl. now apply startswith_split.
  - apply orb_true_iff in H as [H|H].
    + exists [], (skipn (List.length p) (c :: s)). simpl.
      now apply startswith_split.
    + destruct (IH H) as (a & b & ->). now exists (c :: a), b.
Qed.

Lemma contains_length (p s : pystr) :
  contains p s = true -> List.length p <= List.length s.
Proof.
  intros H. destruct (contains_split _ _ H) as (a & b & ->).
  rewrite !length_app. lia.
Qed.

Lemma lstrip_length (s : pystr) : List.length (lstrip s) <= List.length s.
Proof.
  induction s as [|c s IH]; simpl; [lia|].
  destruct (isspace c); simpl; lia.
Qed.

Lemma strip_length (s : pystr) : List.length (strip s) <= List.length s.
Proof.
  unfold strip, rstrip. rewrite length_rev.
  etransitivity; [apply lstrip_length|].
  rewrite length_rev. apply lstrip_length.
Qed.

Lemma slice_to_long (n : nat) (s : pystr) :
  n <= List.length s -> List.length (slice_to n s) = n.
Proof. intros H. unfold slice_to. rewrite length_firstn. lia. Qed.

Lemma slice_to_short (n : nat) (s : pystr) :
  List.length s <= n -> slice_to n s = s.
Proof. intros H. unfold slice_to. now apply firstn_all2. Qed.

Lemma slice_last_length (n : nat) (s : pystr) :
  n <= List.length s -> List.length (slice_last n s) = n.
Proof. intros H. unfold slice_last. rewrite length_skipn. lia. Qed.

End StringFacts.

(** ** Prompt construction and prefix stripping in [/chat] *)

Import Serverless ServerlessApp.

Ltac run_comp :=
  unfold try_except, bind, lift, ret, raise, emit,
    call_tokenizer, call_generate, call_decode; simpl.

Ltac unfold_handler :=
  cbv beta iota delta
      [generate_text generate_text_body chat chat_body try_except bind lift
       ret raise emit call_tokenizer call_generate call_decode
       py_in py_getitem py_get].

Lemma strip_prompt_miss (p g : pystr) :
  startswith p g = false -> strip_prompt p g = g.
Proof. intros H. unfold strip_prompt. now rewrite H. Qed.

Lemma strip_prompt_hit (p r : pystr) :
  strip_prompt p (p ++ r) = strip r.
Proof.
  unfold strip_prompt, slice_from. rewrite startswith_app.
  now rewrite skipn_app, skipn_all, Nat.sub_diag.
Qed.

Lemma strip_prompt_shrinks (p g : pystr) :
  p <> [] -> startswith p g = true ->
  List.length (strip_prompt p g) < List.length g.
Proof.
  intros Hp H. unfold strip_prompt, slice_from. rewrite H.
  pose proof (strip_length (skipn (List.length p) g)) as Hs.
  pose proof (startswith_length _ _ H) as Hl.
  rewrite length_skipn in Hs.
  destruct p as [|c p]; [congruence|]. simpl in *. lia.
Qed.

Lemma strip_prompt_twice (p g : pystr) :
  p <> [] ->
  strip_prompt p (strip_prompt p g) = strip_prompt p g <->
  startswith p (strip_prompt p g) = false.
Proof.
  intros Hp. split.
  - intros Heq. destruct (startswith p (strip_prompt p g)) eqn:E; [|reflexivity].
    pose proof (strip_prompt_shrinks (strip_prompt p g) Hp E) as Hlt.
    rewrite Heq in Hlt. lia.
  - apply strip_prompt_miss.
Qed.

Lemma system_prompt_head (lib : library) (ctx : json) (sp : pystr) :
  system_prompt lib ctx = Returns sp ->
  exists r, sp = SYSTEM_PROMPT ++ r.
Proof.
  unfold system_prompt. destruct (truthy ctx).
  - destruct (py_slice_to 2000 ctx); [|discriminate].
    intros [= <-]. eexists; reflexivity.
  - intros [= <-]. exists []. now rewrite app_nil_r.
Qed.

Lemma full_prompt_head (lib : library) (data : json) (prompt : pystr) :
  full_prompt lib data = Returns prompt ->
  exists r, prompt = SYSTEM_PROMPT ++ r.
Proof.
  unfold full_prompt.
  destruct (py_get data (lit "messages") (JArr [])); [|discriminate].
  destruct (py_get data (lit "manuscriptContext") (JStr [])); [|discriminate].
  destruct (system_prompt lib a0) eqn:Hsp; [|discriminate].
  destruct (message_prompt lib a); [|discriminate].
  intros [= <-]. destruct (system_prompt_head _ _ Hsp) as [r ->].
  exists (r ++ [nl; nl] ++ a2). now rewrite <- app_assoc.
Qed.

Lemma full_prompt_nonempty (lib : library) (data : json) (prompt : pystr) :
  full_prompt lib data = Returns prompt -> prompt <> [].
Proof.
  intros H. destruct (full_prompt_head _ _ H) as [r ->]. discriminate.
Qed.

(** What [/chat] answers when every library call returns. *)
Lemma chat_success (lib : library) (m t : handle) (data : json)
      (prompt : pystr) (ids : tokens lib) (outs : outputs lib) (g : pystr) :
  full_prompt lib data = Returns prompt ->
  tokenizer_encode lib t (JStr prompt) = Returns ids ->
  model_generate lib m ids (JInt 500) default_temperature = Returns outs ->
  tokenizer_decode lib t outs = Returns g ->
  chat lib (Returns (Some m, Some t)) (Returns data)
  = (ok (ChatText (strip_prompt prompt g) MODEL_NAME),
     [Tokenize t (JStr prompt);
      Generate m (JInt 500) default_temperature;
      Decode t]).
Proof.
  intros Hp Ht Hg Hd. unfold chat, chat_body. run_comp.
  rewrite Hp. simpl. rewrite Ht. simpl. rewrite Hg. simpl. rewrite Hd.
  reflexivity.
Qed.

(** The tokenizer is handed exactly the constructed prompt. *)
Lemma chat_tokenizes_prompt (lib : library) (m : option handle) (t : handle)
      (data : json) (prompt : pystr) :
  full_prompt lib data = Returns prompt ->
  exists rest,
    snd (chat lib (Returns (m, Some t)) (Returns data))
    = Tokenize t (JStr prompt) :: rest.
Proof.
  intros Hp. unfold chat, chat_body. run_comp. rewrite Hp. simpl.
  destruct (tokenizer_encode lib t (JStr prompt)); simpl;
    [|eexists; reflexivity].
  destruct m as [m|]; simpl; [|eexists; reflexivity].
  destruct (model_generate lib m a (JInt 500) default_temperature); simpl;
    [|eexists; reflexivity].
  destruct (tokenizer_decode lib t a0); simpl; eexists; reflexivity.
Qed.

(** C5 (amended). [/chat] removes one leading copy of the constructed prompt
    from the decoded output: an output [prompt ++ r] is answered as
    [strip r], an output that does not start with the prompt is answered
    unchanged, and stripping a second time changes nothing exactly when the
    answered text does not itself start with the prompt. *)
Theorem chat_strips_prompt_once
        (lib : library) (m t : handle) (data : json) (prompt : pystr)
        (ids : tokens lib) (outs : outputs lib) (g : pystr) :
  full_prompt lib data = Returns prompt ->
  tokenizer_encode lib t (JStr prompt) = Returns ids ->
  model_generate lib m ids (JInt 500) default_temperature = Returns outs ->
  tokenizer_decode lib t outs = Returns g ->
  fst (chat lib (Returns (Some m, Some t)) (Returns data))
  = ok (ChatText (strip_prompt prompt g) MODEL_NAME)
  /\ (forall r, g = prompt ++ r -> strip_prompt prompt g = strip r)
  /\ (startswith prompt g = false -> strip_prompt prompt g = g)
  /\ (strip_prompt prompt (strip_prompt prompt g) = strip_prompt prompt g
      <-> startswith prompt (strip_prompt prompt g) = false).
Proof.
  intros Hp Ht Hg Hd. repeat split.
  - now rewrite (chat_success lib m t data Hp Ht Hg Hd).
  - intros r ->. apply strip_prompt_hit.
  - apply strip_prompt_miss.
  - apply strip_prompt_twice. exact (full_prompt_nonempty _ _ Hp).
  - apply strip_prompt_twice. exact (full_prompt_nonempty _ _ Hp).
Qed.

Lemma chat_strips_prompt_once_witness :
  let lib := echo_library 1 (lit " It was a dark night. ") in
  let prompt := SYSTEM_PROMPT ++ [nl; nl] in
  let g := prompt ++ lit " It was a dark night. " in
  fst (chat lib (Returns (Some 0, Some 0)) (Returns (JObj [])))
  = ok (ChatText (strip_prompt prompt g) MODEL_NAME)
  /\ (forall r, g = prompt ++ r -> strip_prompt prompt g = strip r)
  /\ (startswith prompt g = false -> strip_prompt prompt g = g)
  /\ (strip_prompt prompt (strip_prompt prompt g) = strip_prompt prompt g
      <-> startswith prompt (strip_prompt prompt g) = false).
Proof.
  intros lib prompt g.
  apply (@chat_strips_prompt_once lib 0 0 (JObj []) prompt prompt g g);
    reflexivity.
Defined.

(** C5, as stated, fails: when the model echoes the prompt twice, the text
    [/chat] answers still starts with the constructed prompt, and stripping
    it again gives a different text. *)
Lemma chat_echoed_twice_keeps_prompt :
  let lib := echo_library 2 (lit "x") in
  let prompt := SYSTEM_PROMPT ++ [nl; nl] in
  let g := prompt ++ prompt ++ lit "x" in
  full_prompt lib (JObj []) = Returns prompt
  /\ fst (chat lib (Returns (Some 0, Some 0)) (Returns (JObj [])))
     = ok (ChatText (prompt ++ lit "x") MODEL_NAME)
  /\ startswith prompt (prompt ++ lit "x") = true
  /\ strip_prompt prompt g = prompt ++ lit "x"
  /\ strip_prompt prompt (strip_prompt prompt g) <> strip_prompt prompt g.
Proof.
  intros lib prompt g. repeat split; try reflexivity.
  vm_compute. discriminate.
Qed.

(** C6. A [manuscriptContext] string enters the constructed prompt as its
    first 2000 characters: exactly 2000 of them when it is longer, all of it
    when it is not; that prompt is what the tokenizer is called with. *)
Theorem chat_context_excerpt
        (lib : library) (kv : list (pystr * json)) (s mp : pystr)
        (m : option handle) (t : handle) :
  lookup (lit "manuscriptContext") kv = Some (JStr s) ->
  message_prompt lib (match lookup (lit "messages") kv with
                      | Some v => v
                      | None => JArr []
                      end) = Returns mp ->
  let excerpt := slice_to 2000 s in
  let prompt := SYSTEM_PROMPT
                ++ match s with
                   | [] => []
                   | _ :: _ => context_header ++ excerpt
                   end
                ++ [nl; nl] ++ mp in
  full_prompt lib (JObj kv) = Returns prompt
  /\ (exists rest,
        snd (chat lib (Returns (m, Some t)) (Returns (JObj kv)))
        = Tokenize t (JStr prompt) :: rest)
  /\ excerpt = firstn 2000 s
  /\ (2000 < List.length s -> List.length excerpt = 2000)
  /\ (List.length s <= 2000 -> excerpt = s).
Proof.
  intros Hctx Hmp excerpt prompt.
  assert (Hfull : full_prompt lib (JObj kv) = Returns prompt).
  { unfold full_prompt, py_get. rewrite Hctx, Hmp.
    unfold system_prompt, prompt, excerpt. destruct s as [|c s]; simpl truthy; cbv iota.
    - reflexivity.
    - unfold py_slice_to, py_format. now rewrite <- !app_assoc. }
  split; [exact Hfull|]. split; [now apply chat_tokenizes_prompt|].
  split; [reflexivity|]. split.
  - intros H. apply slice_to_long. lia.
  - apply slice_to_short.
Qed.

Lemma chat_context_excerpt_witness :
  let s := repeat 97%N 2001 in
  let kv := [(lit "manuscriptContext", JStr s)] in
  let prompt := SYSTEM_PROMPT ++ (context_header ++ slice_to 2000 s)
                ++ [nl; nl] ++ [] in
  full_prompt (echo_library 1 []) (JObj kv) = Returns prompt
  /\ List.length (slice_to 2000 s) = 2000
  /\ slice_to 2000 s = repeat 97%N 2000.
Proof.
  intros s kv prompt.
  destruct (@chat_context_excerpt (echo_library 1 []) kv s [] None 0
              eq_refl eq_refl) as (Hfull & _ & _ & Hlong & _).
  split; [exact Hfull|]. split.
  - apply Hlong. unfold s. rewrite repeat_length. lia.
  - now vm_compute.
Defined.

(** ** The credential mask of [/debug/env] *)

Lemma mask_length (t : pystr) :
  4 <= List.length t -> List.length (mask t) = 11.
Proof.
  intros H. unfold mask. rewrite !length_app.
  rewrite slice_to_long, slice_last_length by lia. reflexivity.
Qed.

Lemma mask_middle (t : pystr) :
  4 <= List.length t -> nth 4 (mask t) 0%N = dot.
Proof.
  intros H. unfold mask.
  rewrite app_nth2; rewrite slice_to_long; try lia.
  reflexivity.
Qed.

(** A token longer than the mask cannot occur in it. *)
Lemma mask_hides_long (t : pystr) :
  11 < List.length t -> contains t (mask t) = false.
Proof.
  intros H. destruct (contains t (mask t)) eqn:E; [|reflexivity].
  apply contains_length in E. rewrite mask_length in E; lia.
Qed.

(** A token of more than 8 characters that occurs in its mask covers the
    dots in the middle of it. *)
Lemma mask_hides_dotless (t : pystr) :
  8 < List.length t -> ~ In dot t -> contains t (mask t) = false.
Proof.
  intros H Hdot. destruct (contains t (mask t)) eqn:E; [|reflexivity].
  exfalso. apply Hdot.
  destruct (contains_split _ _ E) as (a & b & Hab).
  pose proof (mask_length t ltac:(lia)) as Hlen.
  pose proof (mask_middle t ltac:(lia)) as Hmid.
  rewrite Hab in Hlen, Hmid. rewrite !length_app in Hlen.
  rewrite app_nth2 in Hmid by lia.
  rewrite app_nth1 in Hmid by lia.
  rewrite <- Hmid. apply nth_In. lia.
Qed.

Lemma debug_env_configured (env : environ) (t : pystr) :
  hf_token env = Some t -> t <> [] ->
  debug_env env
  = ok (DebugEnv true (mask t)
                 (match PORT env with Some p => p | None => lit "not set" end)).
Proof.
  intros Ht Hne. unfold debug_env. rewrite Ht.
  destruct t; [congruence|reflexivity].
Qed.

(** C7 (amended). The response of [/debug/env] depends on a configured token
    only through its first 4 and its last 4 characters; for a token of more
    than 8 characters the masked field is those two ends around three dots,
    11 characters long, and the token does not occur in it when it is longer
    than 11 characters or contains no dot. *)
Theorem debug_env_masks_token (env : environ) (t : pystr) :
  hf_token env = Some t ->
  (forall env' t',
      hf_token env' = Some t' -> PORT env' = PORT env ->
      slice_to 4 t' = slice_to 4 t -> slice_last 4 t' = slice_last 4 t ->
      debug_env env' = debug_env env)
  /\ (8 < List.length t ->
      let masked := slice_to 4 t ++ lit "..." ++ slice_last 4 t in
      debug_env env
      = ok (DebugEnv true masked
                     (match PORT env with
                      | Some p => p
                      | None => lit "not set"
                      end))
      /\ List.length masked = 11
      /\ (11 < List.length t \/ ~ In dot t -> contains t masked = false)).
Proof.
  intros Ht. split.
  - intros env' t' Ht' Hport Hfirst Hlast.
    unfold debug_env. rewrite Ht, Ht', Hport.
    destruct t as [|c s], t' as [|c' s']; try reflexivity; try discriminate.
    unfold mask. now rewrite Hfirst, Hlast.
  - intros Hlen masked.
    assert (Hne : t <> []) by (destruct t; [simpl in Hlen; lia|discriminate]).
    split; [exact (debug_env_configured env Ht Hne)|].
    split; [apply mask_length; lia|].
    intros [Hlong|Hdot].
    + now apply mask_hides_long.
    + now apply mask_hides_dotless.
Qed.

Lemma debug_env_masks_token_witness :
  let t := lit "hf_abcdefghijklmnopqrstuvwxyz0123456789" in
  debug_env (environ_with_token t false)
  = ok (DebugEnv true (lit "hf_a...6789") (lit "not set"))
  /\ contains t (lit "hf_a...6789") = false
  /\ debug_env (environ_with_token (lit "hf_aSOMETHINGELSE6789") false)
     = debug_env (environ_with_token t false).
Proof.
  intros t.
  destruct (@debug_env_masks_token (environ_with_token t false) t eq_refl)
    as [Hsame Hmask].
  destruct (Hmask ltac:(vm_compute; lia)) as (Hresp & _ & Hhide).
  split; [exact Hresp|]. split.
  - apply Hhide. left. vm_compute. lia.
  - apply (Hsame (environ_with_token (lit "hf_aSOMETHINGELSE6789") false)
                 (lit "hf_aSOMETHINGELSE6789")); reflexivity.
Defined.

(** C7, as stated, fails: a token of 4 characters is answered in full, twice. *)
Lemma debug_env_short_token_in_full :
  let t := lit "abcd" in
  hf_token (environ_with_token t false) = Some t
  /\ debug_env (environ_with_token t false)
     = ok (DebugEnv true (lit "abcd...abcd") (lit "not set"))
  /\ contains t (lit "abcd...abcd") = true.
Proof. repeat split. Qed.

(** ** Validation in [/generate] *)

Definition max_length_error : response :=
  {| status := 400;
     content := Error (lit "max_length cannot exceed 500 tokens") |}.

Definition missing_prompt_error : response :=
  {| status := 400; content := Error (lit "Missing required field: prompt") |}.

Lemma truthy_obj_without (k : pystr) (kv : list (pystr * json)) :
  lookup k kv = None ->
  (if negb (truthy (JObj kv)) then true
   else negb (match lookup k kv with Some _ => true | None => false end))
  = true.
Proof. intros ->. now destruct kv. Qed.

Lemma truthy_obj_with (k : pystr) (kv : list (pystr * json)) (v : json) :
  lookup k kv = Some v -> truthy (JObj kv) = true.
Proof. destruct kv; [discriminate|reflexivity]. Qed.

(** A body without a [prompt] key is answered 400 once [get_model()] has
    returned, and 500 when it raised; no library call is made. *)
Lemma generate_missing_prompt (lib : library) (acq : call_result handles)
      (kv : list (pystr * json)) :
  lookup (lit "prompt") kv = None ->
  generate_text lib acq (Returns (JObj kv))
  = (match acq with
     | Returns _ => missing_prompt_error
     | Raises e => internal_error e
     end, []).
Proof.
  intros H. unfold generate_text, generate_text_body. run_comp.
  destruct acq as [[m t]|e]; [|reflexivity].
  destruct kv as [|b kv]; [reflexivity|].
  cbn [truthy negb]. unfold py_in. rewrite H. reflexivity.
Qed.

(** A body with a [prompt] and an integer [max_length] above 500. *)
Lemma generate_max_length_exceeded (lib : library) (acq : call_result handles)
      (kv : list (pystr * json)) (p : json) (z : Z) :
  lookup (lit "prompt") kv = Some p ->
  lookup (lit "max_length") kv = Some (JInt z) ->
  (500 < z)%Z ->
  generate_text lib acq (Returns (JObj kv))
  = (match acq with
     | Returns _ => max_length_error
     | Raises e => internal_error e
     end, []).
Proof.
  intros Hp Hm Hz. unfold_handler.
  destruct acq as [[m t]|e]; [|reflexivity].
  rewrite (truthy_obj_with _ _ Hp), Hp, Hm. cbv beta iota delta [negb py_gt_int].
  apply Z.ltb_lt in Hz. rewrite Hz. reflexivity.
Qed.

(** C4 (amended). A [/generate] body that lacks [prompt], or carries an
    integer [max_length] above 500, never reaches the tokenizer or the
    model; it is answered 400 when [get_model()] returned, and 500 when
    [get_model()] raised, which the handler calls before it validates. *)
Theorem generate_rejects_invalid
        (lib : library) (acq : call_result handles)
        (kv : list (pystr * json)) :
  lookup (lit "prompt") kv = None
  \/ (exists p z, lookup (lit "prompt") kv = Some p
                  /\ lookup (lit "max_length") kv = Some (JInt z)
                  /\ (500 < z)%Z) ->
  snd (generate_text lib acq (Returns (JObj kv))) = []
  /\ (forall h, acq = Returns h ->
                status (fst (generate_text lib acq (Returns (JObj kv)))) = 400)
  /\ (forall e, acq = Raises e ->
                fst (generate_text lib acq (Returns (JObj kv)))
                = internal_error e)
  /\ (forall env lo fuel w r tr w',
         serve (generate_text lib) env lo fuel w (Returns (JObj kv))
         = Some (r, tr, w') ->
         tr = [] /\ (status r = 400 \/ status r = 500)).
Proof.
  intros H.
  assert (Hall : forall a,
             generate_text lib a (Returns (JObj kv))
             = (match a with
                | Returns _ => missing_prompt_error
                | Raises e => internal_error e
                end, [])
             \/ generate_text lib a (Returns (JObj kv))
                = (match a with
                   | Returns _ => max_length_error
                   | Raises e => internal_error e
                   end, [])).
  { intros a. destruct H as [H|(p & z & Hp & Hm & Hz)].
    - left. now apply generate_missing_prompt.
    - right. now apply generate_max_length_exceeded with p z. }
  repeat split.
  - destruct (Hall acq) as [-> | ->]; reflexivity.
  - intros h ->. destruct (Hall (Returns h)) as [-> | ->]; reflexivity.
  - intros e ->. destruct (Hall (Raises e)) as [-> | ->]; reflexivity.
  - unfold serve in H0. destruct (get_model env lo fuel w) as [[a w1]|];
      [|discriminate].
    injection H0 as Hr _. destruct (Hall a) as [E|E]; rewrite E in Hr;
      now injection Hr.
  - unfold serve in H0. destruct (get_model env lo fuel w) as [[a w1]|];
      [|discriminate].
    injection H0 as Hr _. destruct (Hall a) as [E|E]; rewrite E in Hr;
      injection Hr as <- _; destruct a; simpl; auto.
Qed.

Lemma generate_rejects_invalid_witness :
  let kv := [(lit "prompt", JStr (lit "Once")); (lit "max_length", JInt 501)] in
  snd (generate_text (echo_library 1 []) (Returns (Some 0, Some 0))
                     (Returns (JObj kv))) = []
  /\ status (fst (generate_text (echo_library 1 []) (Returns (Some 0, Some 0))
                                (Returns (JObj kv)))) = 400.
Proof.
  intros kv.
  destruct (@generate_rejects_invalid (echo_library 1 [])
              (Returns (Some 0, Some 0)) kv) as (Hnone & H400 & _).
  - right. exists (JStr (lit "Once")), 501%Z. repeat split.
  - split; [exact Hnone|]. now apply (H400 (Some 0, Some 0)).
Defined.

(** C4, as stated, fails: on a cold process whose load fails, a body without
    [prompt] and with [max_length = 501] is answered 500. *)
Lemma generate_invalid_on_failed_load :
  serve (generate_text (echo_library 1 [])) bare_environ tokenizer_fails 10 cold
        (Returns (JObj [(lit "max_length", JInt 501)]))
  = Some (internal_error (LibraryError (lit "fetch failed")), [],
          {| model := None; tokenizer := None; model_loading := false;
             load_calls := 1; tokenizers_built := 0; models_built := 0 |})
  /\ status (internal_error (LibraryError (lit "fetch failed"))) = 500.
Proof. split; reflexivity. Qed.

(** What [/generate] does with a string prompt and an integer [max_length]
    of at most 500, whatever its sign. *)
Lemma generate_dispatches (lib : library) (m t : handle)
      (kv : list (pystr * json)) (p : pystr) (z : Z) :
  lookup (lit "prompt") kv = Some (JStr p) ->
  match lookup (lit "max_length") kv with
  | Some v => v
  | None => JInt 100
  end = JInt z ->
  (z <= 500)%Z ->
  let temperature := match lookup (lit "temperature") kv with
                     | Some v => v
                     | None => default_temperature
                     end in
  generate_text lib (Returns (Some m, Some t)) (Returns (JObj kv))
  = match tokenizer_encode lib t (JStr p) with
    | Raises e => (internal_error e, [Tokenize t (JStr p)])
    | Returns ids =>
        match model_generate lib m ids (JInt z) temperature with
        | Raises e =>
            (internal_error e,
             [Tokenize t (JStr p); Generate m (JInt z) temperature])
        | Returns outs =>
            (match tokenizer_decode lib t outs with
             | Raises e => internal_error e
             | Returns text => ok (Generated (JStr p) text MODEL_NAME)
             end,
             [Tokenize t (JStr p); Generate m (JInt z) temperature; Decode t])
        end
    end.
Proof.
  intros Hp Hm Hz temperature. unfold_handler.
  rewrite (truthy_obj_with _ _ Hp), Hp, Hm.
  cbv beta iota delta [negb py_gt_int py_slice_to].
  apply Z.ltb_ge in Hz. rewrite Hz. cbv beta iota. simpl app.
  destruct (tokenizer_encode lib t (JStr p)) as [ids|e]; [|reflexivity].
  fold temperature.
  destruct (model_generate lib m ids (JInt z) temperature) as [outs|e];
    [|reflexivity].
  destruct (tokenizer_decode lib t outs); reflexivity.
Qed.

(** C9 (amended). Once [get_model()] has returned a loaded pair and the body
    carries a string prompt, [/generate] answers the 400 [max_length] error
    exactly when the integer [max_length] (100 when absent) is above 500;
    every other value, zero and negative ones included, goes to the
    tokenizer and, once tokenized, to [model.generate] as it is. *)
Theorem generate_checks_upper_bound_only
        (lib : library) (m t : handle) (kv : list (pystr * json))
        (p : pystr) (z : Z) :
  lookup (lit "prompt") kv = Some (JStr p) ->
  match lookup (lit "max_length") kv with
  | Some v => v
  | None => JInt 100
  end = JInt z ->
  let temperature := match lookup (lit "temperature") kv with
                     | Some v => v
                     | None => default_temperature
                     end in
  let r := generate_text lib (Returns (Some m, Some t)) (Returns (JObj kv)) in
  (fst r = max_length_error <-> (500 < z)%Z)
  /\ ((z <= 500)%Z ->
      exists rest,
        snd r = Tokenize t (JStr p) :: rest
        /\ forall ids, tokenizer_encode lib t (JStr p) = Returns ids ->
                       exists rest',
                         rest = Generate m (JInt z) temperature :: rest').
Proof.
  intros Hp Hm temperature r.
  destruct (Z.ltb_spec 500 z) as [Hgt|Hle].
  - split.
    + split; [intros _; exact Hgt|intros _].
      unfold r, generate_text, generate_text_body. unfold_handler.
      rewrite (truthy_obj_with _ _ Hp), Hp, Hm.
      cbv beta iota delta [negb py_gt_int].
      apply Z.ltb_lt in Hgt. now rewrite Hgt.
    + intros H. lia.
  - pose proof (generate_dispatches lib m t kv Hp Hm Hle) as Hd.
    cbv zeta in Hd. fold temperature in Hd. fold r in Hd.
    split.
    + split; [|intros H; lia]. intros Habs. exfalso. rewrite Hd in Habs.
      destruct (tokenizer_encode lib t (JStr p)) as [ids|e];
        [|discriminate].
      destruct (model_generate lib m ids (JInt z) temperature) as [outs|e];
        [|discriminate].
      destruct (tokenizer_decode lib t outs); discriminate.
    + intros _. rewrite Hd.
      destruct (tokenizer_encode lib t (JStr p)) as [ids|e].
      * destruct (model_generate lib m ids (JInt z) temperature)
          as [outs|e]; eexists; (split; [reflexivity|]);
          intros ids' [= <-]; eexists; reflexivity.
      * eexists. split; [reflexivity|]. intros ids' [=].
Qed.

Lemma generate_checks_upper_bound_only_witness :
  let kv := [(lit "prompt", JStr (lit "Once")); (lit "max_length", JInt (-5))] in
  let r := generate_text (echo_library 1 (lit " upon")) (Returns (Some 0, Some 0))
                         (Returns (JObj kv)) in
  (fst r = max_length_error <-> (500 < -5)%Z)
  /\ snd r = [Tokenize 0 (JStr (lit "Once"));
              Generate 0 (JInt (-5)) default_temperature;
              Decode 0].
Proof.
  intros kv r.
  destruct (@generate_checks_upper_bound_only (echo_library 1 (lit " upon"))
              0 0 kv (lit "Once") (-5)%Z eq_refl eq_refl) as [Hiff _].
  split; [exact Hiff|reflexivity].
Defined.

(** C9, as stated, fails in both directions. On a cold process whose load
    fails, [max_length = 501] is answered 500, not the 400 [max_length]
    error: the bound is never looked at. And [max_length = 10] with a prompt
    that is a number passes the bound but is not dispatched: slicing the
    prompt for the log line raises and the answer is 500 with no library
    call. *)
Lemma generate_bound_check_not_reached :
  serve (generate_text (echo_library 1 [])) bare_environ tokenizer_fails 10 cold
        (Returns (JObj [(lit "prompt", JStr (lit "Once"));
                        (lit "max_length", JInt 501)]))
  = Some (internal_error (LibraryError (lit "fetch failed")), [],
          {| model := None; tokenizer := None; model_loading := false;
             load_calls := 1; tokenizers_built := 0; models_built := 0 |})
  /\ internal_error (LibraryError (lit "fetch failed")) <> max_length_error
  /\ generate_text (echo_library 1 []) (Returns (Some 0, Some 0))
                   (Returns (JObj [(lit "prompt", JInt 5);
                                   (lit "max_length", JInt 10)]))
     = (internal_error TypeError, []).
Proof. split; [reflexivity|]. split; [discriminate|reflexivity]. Qed.

(** ** The VM variant *)

(** C10. In the VM variant [/generate] answers exactly what [/chat] answers
    on the same request, status and body, with the same library calls. *)
Theorem vm_generate_is_chat (lib : library) (w : VM.world)
        (req : call_result json) :
  VM.generate lib w req = VM.chat lib w req
  /\ VM.status (fst (VM.generate lib w req)) = VM.status (fst (VM.chat lib w req))
  /\ VM.content (fst (VM.generate lib w req))
     = VM.content (fst (VM.chat lib w req))
  /\ snd (VM.generate lib w req) = snd (VM.chat lib w req).
Proof. repeat split. Qed.

(** ** The readiness coordinator under every schedule *)

Unset Implicit Arguments.

Section Schedules.
Variable env : environ.

(** Establish and preserve: what holds at a configuration and survives every
    step holds after every schedule. *)
Lemma run_invariant (Inv : config -> Prop) :
  (forall ch c, Inv c -> Inv (sys_step env ch c)) ->
  forall sched c, Inv c -> Inv (run env sched c).
Proof.
  intros Hstep sched. unfold run.
  induction sched as [|ch sched IH]; intros c Hc; simpl; auto.
Qed.

Lemma run_app (s1 s2 : list choice) (c : config) :
  run env (s1 ++ s2) c = run env s2 (run env s1 c).
Proof. unfold run. apply fold_left_app. Qed.

Lemma Forall_set_nth (P : pc -> Prop) (l : list pc) (i : nat) (p : pc) :
  Forall P l -> P p -> Forall P (set_nth i p l).
Proof.
  intros Hl Hp. revert i.
  induction Hl as [|q l Hq Hl IH]; intros i; simpl.
  - constructor.
  - destruct i; constructor; auto.
Qed.

Lemma Forall_nth_error (P : pc -> Prop) (l : list pc) (i : nat) (p : pc) :
  Forall P l -> nth_error l i = Some p -> P p.
Proof.
  intros Hl. revert i.
  induction Hl as [|q l Hq Hl IH]; intros [|i]; simpl; try discriminate.
  - now intros [= <-].
  - apply IH.
Qed.

End Schedules.

Definition is_some {A : Type} (o : option A) : bool :=
  match o with
  | Some _ => true
  | None => false
  end.

(** The globals only grow: a set handle stays set, and no step clears
    [model_loading]. *)
Definition evolves (w w' : world) : Prop :=
  (is_some (model w) = true -> is_some (model w') = true)
  /\ (is_some (tokenizer w) = true -> is_some (tokenizer w') = true)
  /\ (model_loading w = true -> model_loading w' = true).

(** A set [model] comes with a set [tokenizer]. *)
Definition complete_pair (w : world) : Prop :=
  is_some (model w) = true -> is_some (tokenizer w) = true.

(** What a thread at [p] may rely on. *)
Definition thread_ok (w : world) (p : pc) : Prop :=
  match p with
  | GetModel_wait | GetModel_wait_model | GetModel_sleep =>
      model_loading w = true
  | GetModel_return => is_some (model w) = true
  | GetModel_return_tokenizer m =>
      is_some m = true /\ is_some (tokenizer w) = true
  | Load_model _ => is_some (tokenizer w) = true
  | Load_finally _ None => is_some (model w) = true
  | Finished (Returns (m, t)) => is_some m = true /\ is_some t = true
  | _ => True
  end.

Definition ready_inv (c : config) : Prop :=
  complete_pair (shared c) /\ Forall (thread_ok (shared c)) (threads c).

Lemma evolves_refl (w : world) : evolves w w.
Proof. unfold evolves. auto. Qed.

Lemma thread_ok_stable (w w' : world) (p : pc) :
  evolves w w' -> thread_ok w p -> thread_ok w' p.
Proof.
  intros (Hm & Ht & Hl).
  destruct p as [| | | | | | m | | | | | | fr [e|] | | | | [[m t]|e]];
    simpl; intuition.
Qed.

Ltac crush_step :=
  repeat split; simpl in *; intros; auto; try congruence.

(** Case analysis on what a step read: every test the step made on the store
    or on the library's outcome becomes an equation. *)
Ltac step_cases Hstep :=
  repeat match type of Hstep with
         | context [match ?x with _ => _ end] => destruct x eqn:?
         end;
  try discriminate; injection Hstep as <- <-.

Lemma thread_step_ready (env : environ) (lo : load_outcome)
      (w w' : world) (p p' : pc) :
  thread_step env lo w p = Some (w', p') ->
  complete_pair w -> thread_ok w p ->
  complete_pair w' /\ thread_ok w' p' /\ evolves w w'.
Proof.
  unfold complete_pair, evolves.
  destruct p as [| | | | | | m | fr | fr | fr | fr | fr e | fr pe | | e | | r];
    cbv beta iota delta [thread_step leave_load]; intros Hstep Hw Hp;
    step_cases Hstep; simpl in *;
    repeat match goal with
           | E : model w = _ |- _ => rewrite E in *
           | E : tokenizer w = _ |- _ => rewrite E in *
           end;
    simpl in *; intuition congruence.
Qed.

Lemma sys_step_ready (env : environ) (ch : choice) (c : config) :
  ready_inv c -> ready_inv (sys_step env ch c).
Proof.
  intros [Hw Hts]. unfold sys_step.
  destruct (nth_error (threads c) (fst ch)) as [p|] eqn:Hnth; [|now split].
  destruct (thread_step env (snd ch) (shared c) p) as [[w' p']|] eqn:Hstep;
    [|now split].
  destruct (thread_step_ready _ _ _ _ _ _ Hstep Hw
              (Forall_nth_error _ _ _ _ Hts Hnth)) as (Hw' & Hp' & Hev).
  split; simpl; [exact Hw'|].
  apply Forall_set_nth; [|exact Hp'].
  eapply Forall_impl; [|exact Hts].
  intros q. now apply thread_ok_stable.
Qed.

Lemma startup_ready (env : environ) (n : nat) : ready_inv (startup env n).
Proof.
  split; [discriminate|]. simpl. apply Forall_app. split.
  - destruct (EAGER_LOAD env); repeat constructor.
  - apply Forall_forall. intros p Hp. apply repeat_spec in Hp. now subst.
Qed.

Lemma reachable_ready (env : environ) (n : nat) (sched : list choice) :
  ready_inv (run env sched (startup env n)).
Proof.
  apply run_invariant; [apply sys_step_ready|apply startup_ready].
Qed.

Lemma is_some_true {A : Type} (o : option A) :
  is_some o = true -> exists a, o = Some a.
Proof. destruct o; [eauto|discriminate]. Qed.

(** Without [EAGER_LOAD] there is no background thread, and nothing else
    sets [model_loading]. *)
Definition lazy_inv (c : config) : Prop :=
  model_loading (shared c) = false
  /\ Forall (fun p => p <> Background_entry) (threads c).

Lemma thread_step_lazy (env : environ) (lo : load_outcome)
      (w w' : world) (p p' : pc) :
  thread_step env lo w p = Some (w', p') ->
  p <> Background_entry ->
  model_loading w' = model_loading w /\ p' <> Background_entry.
Proof.
  destruct p as [| | | | | | m | fr | fr | fr | fr | fr e | fr pe | | e | | r];
    cbv beta iota delta [thread_step leave_load]; intros Hstep Hp;
    try congruence; step_cases Hstep; simpl; split; congruence.
Qed.

Lemma sys_step_lazy (env : environ) (ch : choice) (c : config) :
  lazy_inv c -> lazy_inv (sys_step env ch c).
Proof.
  intros [Hl Hts]. unfold sys_step.
  destruct (nth_error (threads c) (fst ch)) as [p|] eqn:Hnth; [|now split].
  destruct (thread_step env (snd ch) (shared c) p) as [[w' p']|] eqn:Hstep;
    [|now split].
  destruct (thread_step_lazy _ _ _ _ _ _ Hstep
              (Forall_nth_error _ _ _ _ Hts Hnth)) as [Hl' Hp'].
  split; simpl; [congruence|]. now apply Forall_set_nth.
Qed.

Lemma reachable_lazy (env : environ) (n : nat) (sched : list choice) :
  EAGER_LOAD env = false -> lazy_inv (run env sched (startup env n)).
Proof.
  intros Hlazy. apply run_invariant; [apply sys_step_lazy|].
  split; [reflexivity|]. unfold startup. rewrite Hlazy. simpl.
  apply Forall_forall. intros p Hp. apply repeat_spec in Hp. now subst.
Qed.

Lemma run_thread_unfold (env : environ) (lo : load_outcome) (fuel : nat)
      (w : world) (p : pc) :
  run_thread env lo (S fuel) w p
  = match p with
    | Finished r => Some (r, w)
    | _ => match thread_step env lo w p with
           | None => None
           | Some (w', p') => run_thread env lo fuel w' p'
           end
    end.
Proof. destruct p; reflexivity. Qed.

Ltac thread_step_once :=
  rewrite run_thread_unfold; cbv beta iota delta [thread_step].

(** A call that finds no load flagged and whose load succeeds returns a
    complete pair within 10 steps. *)
Lemma get_model_alone_ready (env : environ) (w : world) :
  complete_pair w -> model_loading w = false ->
  exists m t w',
    get_model env all_succeed 10 w = Some (Returns (Some m, Some t), w').
Proof.
  intros Hw Hl. unfold get_model, complete_pair in *.
  destruct (model w) as [m|] eqn:Hm.
  - destruct (is_some_true _ (Hw eq_refl)) as [t Ht].
    exists m, t, w.
    thread_step_once. rewrite Hm. thread_step_once. rewrite Hm.
    thread_step_once. rewrite Ht. reflexivity.
  - thread_step_once. rewrite Hm. thread_step_once. rewrite Hl.
    thread_step_once.
    destruct (str_truthy (hf_token env)); eexists _, _, _; reflexivity.
Qed.

(** C1 (amended). Whatever the schedule, a [get_model()] call that returns
    hands back a set model together with a set tokenizer, also to a caller
    that waited for somebody else's load; and with lazy loading a call whose
    load succeeds does return such a pair. *)
Theorem get_model_returns_ready
        (env : environ) (n : nat) (sched : list choice) :
  Forall (fun p => match p with
                   | Finished (Returns (m, t)) =>
                       (exists hm, m = Some hm) /\ (exists ht, t = Some ht)
                   | _ => True
                   end)
         (threads (run env sched (startup env n)))
  /\ (EAGER_LOAD env = false ->
      exists m t w',
        get_model env all_succeed 10 (shared (run env sched (startup env n)))
        = Some (Returns (Some m, Some t), w')).
Proof.
  destruct (reachable_ready env n sched) as [Hw Hts]. split.
  - eapply Forall_impl; [|exact Hts].
    intros [| | | | | | | | | | | | | | | | [[m t]|e]]; simpl; auto.
    intros [Hm Ht]. split; now apply is_some_true.
  - intros Hlazy. destruct (reachable_lazy env n sched Hlazy) as [Hl _].
    now apply get_model_alone_ready.
Qed.

Lemma get_model_returns_ready_witness :
  exists m t w',
    get_model bare_environ all_succeed 10
              (shared (run bare_environ
                           [(0, all_succeed); (1, all_succeed);
                            (0, all_succeed); (0, all_succeed)]
                           (startup bare_environ 2)))
    = Some (Returns (Some m, Some t), w').
Proof.
  exact (proj2 (get_model_returns_ready bare_environ 2
                  [(0, all_succeed); (1, all_succeed);
                   (0, all_succeed); (0, all_succeed)]) eq_refl).
Defined.

(** C1, as stated, fails: the first call on a cold process whose load fails
    does not return a handle, it raises. *)
Lemma get_model_raises_on_failed_load :
  get_model bare_environ tokenizer_fails 10 cold
  = Some (Raises (LibraryError (lit "fetch failed")),
          {| model := None; tokenizer := None; model_loading := false;
             load_calls := 1; tokenizers_built := 0; models_built := 0 |}).
Proof. reflexivity. Qed.

(** C8. In every reachable store of the serverless variant, and after the
    start-up load of the VM variant however it ends, a set [model] (what
    [/health] reports as [model_loaded]) comes with a set [tokenizer]. *)
Theorem loaded_model_has_tokenizer
        (env : environ) (n : nat) (sched : list choice)
        (tokenizer_raises model_raises : option exn) :
  (let w := shared (run env sched (startup env n)) in
   match model w with
   | Some _ => health_check w = ok (Health MODEL_NAME true)
               /\ exists t, tokenizer w = Some t
   | None => health_check w = ok (Health MODEL_NAME false)
   end)
  /\ (let v := snd (VM.load_model tokenizer_raises model_raises VM.cold) in
      match VM.model v with
      | Some _ => VM.content (VM.health v) = VM.Health true VM.DEPLOYMENT
                  /\ exists t, VM.tokenizer v = Some t
      | None => VM.content (VM.health v) = VM.Health false VM.DEPLOYMENT
      end).
Proof.
  split.
  - destruct (reachable_ready env n sched) as [Hw _].
    unfold complete_pair, health_check in *. cbv zeta.
    destruct (model (shared (run env sched (startup env n)))).
    + split; [reflexivity|]. now apply is_some_true, Hw.
    + reflexivity.
  - destruct tokenizer_raises, model_raises; simpl; eauto.
Qed.

(** ** A background load that fails *)

Definition before_load (p : pc) : bool :=
  match p with
  | GetModel_entry | GetModel_check_loading | GetModel_wait
  | GetModel_wait_model | GetModel_sleep => true
  | _ => false
  end.

(** With the flag set and no model, a caller never leaves lines 50-55. *)
Lemma waits_forever (env : environ) (lo : load_outcome) (w : world)
      (fuel : nat) (p : pc) :
  model w = None -> model_loading w = true -> before_load p = true ->
  run_thread env lo fuel w p = None.
Proof.
  intros Hm Hl. revert p.
  induction fuel as [|fuel IH]; intros p Hp.
  - destruct p; try discriminate; reflexivity.
  - rewrite run_thread_unfold.
    destruct p; try discriminate; cbv beta iota delta [thread_step];
      rewrite ?Hm, ?Hl; now apply IH.
Qed.

(** The environment enters a thread's steps only through whether a
    credential is configured. *)
Lemma thread_step_token_only (env env' : environ) :
  str_truthy (hf_token env) = str_truthy (hf_token env') ->
  forall lo w p, thread_step env lo w p = thread_step env' lo w p.
Proof.
  intros H lo w p. destruct p; cbv beta iota delta [thread_step];
    rewrite ?H; reflexivity.
Qed.

Lemma run_thread_token_only (env env' : environ) :
  str_truthy (hf_token env) = str_truthy (hf_token env') ->
  forall lo fuel w p, run_thread env lo fuel w p = run_thread env' lo fuel w p.
Proof.
  intros H lo fuel. induction fuel as [|fuel IH]; intros w p.
  - destruct p; reflexivity.
  - rewrite !run_thread_unfold, (thread_step_token_only env env' H).
    destruct p; try reflexivity;
      destruct (thread_step env' lo w _) as [[w1 p1]|]; auto.
Qed.

Lemma run_token_only (env env' : environ) :
  str_truthy (hf_token env) = str_truthy (hf_token env') ->
  forall sched c, run env sched c = run env' sched c.
Proof.
  intros H sched. unfold run.
  induction sched as [|ch sched IH]; intros c; [reflexivity|].
  cbn [fold_left]. rewrite IH. f_equal. unfold sys_step.
  destruct (nth_error (threads c) (fst ch)); [|reflexivity].
  now rewrite (thread_step_token_only env env' H).
Qed.

(** Every environment behaves as one of these two. *)
Lemma environ_cases (env : environ) :
  str_truthy (hf_token env) = str_truthy (hf_token bare_environ)
  \/ str_truthy (hf_token env)
     = str_truthy (hf_token (environ_with_token (lit "hf_x") false)).
Proof. destruct (str_truthy (hf_token env)); [right|left]; reflexivity. Qed.

(** C3 fails on the background path. After [load_model_background] has run
    a load that raised, [model] is [None] and [model_loading] is still
    [True]: lines 94 and 97 assign a local. A later [get_model()] sits in
    the wait loop whatever fuel it is given and never enters [load_model]. *)
Theorem failed_background_load_stays_loading
        (env : environ) (lo : load_outcome) (fuel : nat) :
  let w := load_model_background env tokenizer_fails cold in
  let w' := load_model_background env model_fails cold in
  (model w = None /\ model_loading w = true /\ load_calls w = 1
   /\ get_model env lo fuel w = None)
  /\ (model w' = None /\ model_loading w' = true /\ load_calls w' = 1
      /\ get_model env lo fuel w' = None).
Proof.
  intros w w'.
  assert (Hw : model w = None /\ model_loading w = true /\ load_calls w = 1).
  { unfold w, load_model_background.
    destruct (environ_cases env) as [E|E]; rewrite (run_token_only _ _ E);
      repeat split. }
  assert (Hw' : model w' = None /\ model_loading w' = true
                /\ load_calls w' = 1).
  { unfold w', load_model_background.
    destruct (environ_cases env) as [E|E]; rewrite (run_token_only _ _ E);
      repeat split. }
  destruct Hw as (Hm & Hl & Hc), Hw' as (Hm' & Hl' & Hc').
  repeat split; auto; now apply waits_forever.
Qed.

(** On the lazy path the flag is never set, and a failed load is retried by
    the next call. *)
Lemma lazy_failed_load_retries (env : environ) :
  exists e w1 w2,
    get_model env tokenizer_fails 10 cold = Some (Raises e, w1)
    /\ model w1 = None /\ model_loading w1 = false
    /\ get_model env all_succeed 10 w1 = Some (Returns (Some 0, Some 0), w2)
    /\ load_calls w2 = 2.
Proof.
  unfold get_model.
  destruct (environ_cases env) as [E|E];
    eexists _, _, _; rewrite !(run_thread_token_only _ _ E);
    (split; [reflexivity|]); repeat split.
Qed.

(** ** Callers that arrive after the background load was flagged *)

(** What holds of the store while the background thread is at [p]. *)
Definition loader_pc (w : world) (p : pc) : Prop :=
  match p with
  | Load_entry fr =>
      called_from fr = FromBackground /\ load_calls w = 0
      /\ tokenizers_built w = 0 /\ models_built w = 0 /\ model w = None
  | Load_login fr | Load_tokenizer fr =>
      called_from fr = FromBackground /\ load_calls w = 1
      /\ tokenizers_built w = 0 /\ models_built w = 0 /\ model w = None
  | Load_model fr =>
      called_from fr = FromBackground /\ load_calls w = 1
      /\ tokenizer w = Some 0 /\ models_built w = 0 /\ model w = None
  | Load_except fr _ | Load_finally fr (Some _) =>
      called_from fr = FromBackground /\ load_calls w = 1
      /\ models_built w = 0 /\ model w = None
  | Load_finally fr None =>
      called_from fr = FromBackground /\ load_calls w = 1
      /\ models_built w = 1 /\ model w = Some 0 /\ tokenizer w = Some 0
  | Background_except _ =>
      load_calls w = 1 /\ models_built w = 0 /\ model w = None
  | Background_finished =>
      load_calls w = 1
      /\ (models_built w = 0 /\ model w = None
          \/ models_built w = 1 /\ model w = Some 0 /\ tokenizer w = Some 0)
  | _ => False
  end.

(** What holds of a request thread at [p]: it is outside [load_model], and
    past the wait only with the one pair the background thread built. *)
Definition waiter_pc (w : world) (p : pc) : Prop :=
  match p with
  | GetModel_entry | GetModel_check_loading | GetModel_wait
  | GetModel_wait_model | GetModel_sleep => True
  | GetModel_return => model w = Some 0 /\ tokenizer w = Some 0
  | GetModel_return_tokenizer m =>
      m = Some 0 /\ model w = Some 0 /\ tokenizer w = Some 0
  | Finished r => r = Returns (Some 0, Some 0)
  | _ => False
  end.

Definition single_load_inv (c : config) : Prop :=
  model_loading (shared c) = true
  /\ match threads c with
     | [] => False
     | p0 :: rest =>
         loader_pc (shared c) p0 /\ Forall (waiter_pc (shared c)) rest
     end.

Lemma loader_pc_store (w : world) (p : pc) :
  loader_pc w p ->
  load_calls w <= 1 /\ models_built w <= 1
  /\ (model w = None \/ model w = Some 0 /\ tokenizer w = Some 0).
Proof.
  destruct p as [| | | | | | m | fr | fr | fr | fr | fr e | fr [e|] | | e | | r];
    simpl; intuition lia.
Qed.

Ltac stable_waiters Hm :=
  let q := fresh "q" in
  let Hq := fresh "Hq" in
  intros q Hq; destruct q; simpl in *; auto;
  try (rewrite Hm in Hq; intuition congruence).

Lemma loader_step (env : environ) (lo : load_outcome)
      (w w' : world) (p p' : pc) :
  thread_step env lo w p = Some (w', p') ->
  loader_pc w p -> model_loading w = true ->
  loader_pc w' p' /\ model_loading w' = true
  /\ forall q, waiter_pc w q -> waiter_pc w' q.
Proof.
  destruct p as [| | | | | | m | fr | fr | fr | fr | fr e | fr [e|] | | e | | r];
    cbv beta iota delta [thread_step loader_pc leave_load];
    intros Hstep Hp Hl; try contradiction; step_cases Hstep;
    simpl in *;
    (split; [|split; [exact Hl|]]);
    try (intuition congruence);
    match goal with
    | Hp : _ /\ _ |- _ =>
        let Hm := fresh "Hm" in
        assert (Hm : model w = None) by tauto; stable_waiters Hm
    end.
Qed.

Lemma waiter_step (env : environ) (lo : load_outcome)
      (w w' : world) (q q' : pc) :
  thread_step env lo w q = Some (w', q') ->
  waiter_pc w q -> model_loading w = true ->
  model w = None \/ model w = Some 0 /\ tokenizer w = Some 0 ->
  w' = w /\ waiter_pc w q'.
Proof.
  destruct q; cbv beta iota delta [thread_step waiter_pc];
    intros Hstep Hq Hl Hm; try contradiction; step_cases Hstep;
    simpl in *; try (destruct Hq as (-> & _ & ->); now split);
    intuition congruence.
Qed.

Lemma sys_step_single_load (env : environ) (ch : choice) (c : config) :
  single_load_inv c -> single_load_inv (sys_step env ch c).
Proof.
  intros [Hl Hts]. unfold sys_step.
  destruct (threads c) as [|p0 rest] eqn:Hthr; [contradiction|].
  destruct Hts as [Hp0 Hrest].
  destruct (fst ch) as [|j].
  - simpl.
    destruct (thread_step env (snd ch) (shared c) p0) as [[w' p']|] eqn:Hstep.
    + destruct (loader_step _ _ _ _ _ _ Hstep Hp0 Hl) as (Hp' & Hl' & Hstable).
      split; simpl; [exact Hl'|]. split; [exact Hp'|].
      eapply Forall_impl; [exact Hstable|exact Hrest].
    + split; [exact Hl|]. rewrite Hthr. now split.
  - simpl. destruct (nth_error rest j) as [q|] eqn:Hnth.
    + destruct (thread_step env (snd ch) (shared c) q) as [[w' q']|] eqn:Hstep.
      * destruct (waiter_step _ _ _ _ _ _ Hstep
                    (Forall_nth_error _ _ _ _ Hrest Hnth) Hl
                    (proj2 (proj2 (loader_pc_store _ _ Hp0)))) as [-> Hq'].
        split; simpl; [exact Hl|]. split; [exact Hp0|].
        now apply Forall_set_nth.
      * split; [exact Hl|]. rewrite Hthr. now split.
    + split; [exact Hl|]. rewrite Hthr. now split.
Qed.

Lemma background_started_single_load (n : nat) :
  single_load_inv (background_started n).
Proof.
  split; [reflexivity|]. simpl. split.
  - repeat split.
  - apply Forall_forall. intros p Hp. apply repeat_spec in Hp. now subst.
Qed.

Lemma waiters_not_in_load (w : world) (l : list pc) :
  Forall (waiter_pc w) l -> filter in_load l = [].
Proof.
  induction 1 as [|q l Hq Hl IH]; [reflexivity|].
  simpl. rewrite IH. destruct q; simpl in *; try contradiction; reflexivity.
Qed.

(** Once the model is set, a waiting caller on its own reaches the return
    with the one pair within 5 steps. *)
Lemma waiter_finishes (env : environ) (lo : load_outcome) (w : world) (q : pc) :
  model_loading w = true -> model w = Some 0 -> tokenizer w = Some 0 ->
  waiter_pc w q ->
  run_thread env lo 5 w q = Some (Returns (Some 0, Some 0), w).
Proof.
  intros Hl Hm Ht Hq.
  destruct q; simpl in Hq; try contradiction;
    repeat (thread_step_once; rewrite ?Hl, ?Hm, ?Ht);
    try reflexivity.
  - destruct Hq as [-> _]. reflexivity.
  - now subst r.
Qed.

Lemma reachable_single_load (env : environ) (n : nat) (sched : list choice) :
  single_load_inv (run env sched (background_started n)).
Proof.
  apply run_invariant;
    [apply sys_step_single_load|apply background_started_single_load].
Qed.

(** C2 (amended). Once the background thread has set [model_loading]
    (line 102), under every schedule of it and of the callers that arrive
    from then on: [load_model] is entered at most once, at most one model is
    built, at most one thread is inside [load_model], and every caller that
    returns holds the same pair; once that model is set, each caller that is
    still on its way returns it within 5 of its own steps. *)
Theorem background_load_is_single
        (env : environ) (n : nat) (sched : list choice) :
  let c := run env sched (background_started n) in
  load_calls (shared c) <= 1
  /\ models_built (shared c) <= 1
  /\ loads_in_flight c <= 1
  /\ Forall (fun p => match p with
                      | Finished r => r = Returns (Some 0, Some 0)
                      | _ => True
                      end) (threads c)
  /\ (forall m lo,
         model (shared c) = Some m ->
         Forall (fun p => run_thread env lo 5 (shared c) p
                          = Some (Returns (Some 0, Some 0), shared c))
                (tl (threads c))).
Proof.
  intros c. destruct (reachable_single_load env n sched) as [Hl Hts].
  fold c in Hl, Hts. unfold loads_in_flight.
  destruct (threads c) as [|p0 rest]; [contradiction|].
  destruct Hts as [Hp0 Hrest].
  destruct (loader_pc_store _ _ Hp0) as (Hc & Hb & Hm).
  split; [exact Hc|]. split; [exact Hb|]. split; [|split].
  - simpl. rewrite (waiters_not_in_load _ _ Hrest).
    destruct (in_load p0); simpl; lia.
  - constructor.
    + destruct p0; simpl in Hp0; try contradiction; exact I.
    + eapply Forall_impl; [|exact Hrest].
      intros q Hq. destruct q; simpl in Hq; try contradiction; auto.
  - intros m lo Hset. cbn [tl].
    destruct Hm as [Hm|[Hm Ht]]; [congruence|].
    eapply Forall_impl; [|exact Hrest].
    intros q Hq. now apply waiter_finishes.
Qed.

Lemma background_load_is_single_witness :
  let sched := [(1, all_succeed); (1, all_succeed); (1, all_succeed);
                (0, all_succeed); (0, all_succeed); (0, all_succeed);
                (1, all_succeed); (1, all_succeed)] in
  let c := run bare_environ sched (background_started 2) in
  model (shared c) = Some 0
  /\ threads c = [Load_finally (enter_load FromBackground) None;
                  GetModel_return_tokenizer (Some 0); GetModel_entry]
  /\ Forall (fun p => run_thread bare_environ all_succeed 5 (shared c) p
                      = Some (Returns (Some 0, Some 0), shared c))
            [GetModel_return_tokenizer (Some 0); GetModel_entry].
Proof.
  intros sched c. split; [reflexivity|]. split; [reflexivity|].
  exact (proj2 (proj2 (proj2 (proj2
           (background_load_is_single bare_environ 2 sched))))
           0 all_succeed eq_refl).
Defined.

(** C2, as stated, fails: with lazy loading a second caller that arrives
    while the first is inside [load_model] finds [model_loading] unset and
    loads as well. Two loads are in flight, two models are built, and the two
    callers return different pairs. *)
Lemma lazy_callers_both_load :
  let arrive := [(0, all_succeed); (0, all_succeed); (0, all_succeed);
                 (1, all_succeed); (1, all_succeed); (1, all_succeed)] in
  let finish := [(0, all_succeed); (0, all_succeed); (0, all_succeed);
                 (0, all_succeed); (0, all_succeed);
                 (1, all_succeed); (1, all_succeed); (1, all_succeed);
                 (1, all_succeed); (1, all_succeed)] in
  let mid := run bare_environ arrive (startup bare_environ 2) in
  let c := run bare_environ finish mid in
  loads_in_flight mid = 2
  /\ load_calls (shared c) = 2
  /\ models_built (shared c) = 2
  /\ threads c = [Finished (Returns (Some 0, Some 0));
                  Finished (Returns (Some 1, Some 1))].
Proof. repeat split. Qed.

(* ================================================================== *)
(** * Further properties of the coordinator *)

(** The exception [load_model] leaves with: that of the first library call
    that raises, in the order login (made only with a credential),
    tokenizer, model. *)
Definition first_failure (env : environ) (lo : load_outcome) : option exn :=
  match (if str_truthy (hf_token env) then login_raises lo else None) with
  | Some e => Some e
  | None =>
      match tokenizer_raises lo with
      | Some e => Some e
      | None => model_raises lo
      end
  end.

(** Lines 52-55. *)
Definition waiting (p : pc) : bool :=
  match p with
  | GetModel_wait | GetModel_wait_model | GetModel_sleep => true
  | _ => false
  end.

Lemma get_model_ready (env : environ) (lo : load_outcome) (fuel : nat)
      (w : world) (m t : handle) :
  model w = Some m -> tokenizer w = Some t ->
  get_model env lo (3 + fuel) w = Some (Returns (Some m, Some t), w).
Proof.
  intros Hm Ht. unfold get_model. cbn [Nat.add].
  thread_step_once. rewrite Hm. thread_step_once. rewrite Hm.
  thread_step_once. rewrite Ht. destruct fuel; reflexivity.
Qed.

(** X1. READY. With both globals set, [get_model()] returns them after three
    steps, whatever [model_loading] says and whatever the library would do:
    nothing is loaded and the store is left as it was; a request served on
    such a store is the handler applied to that pair. *)
Theorem get_model_ready_store
        (env : environ) (lo : load_outcome) (fuel : nat) (w : world)
        (m t : handle) :
  model w = Some m -> tokenizer w = Some t ->
  get_model env lo (3 + fuel) w = Some (Returns (Some m, Some t), w)
  /\ forall (handler : call_result handles -> call_result json ->
                       response * list event)
            (req : call_result json),
      serve handler env lo (3 + fuel) w req
      = Some (handler (Returns (Some m, Some t)) req, w).
Proof.
  intros Hm Ht.
  pose proof (get_model_ready env lo fuel w m t Hm Ht) as H.
  split; [exact H|]. intros handler req. unfold serve. now rewrite H.
Qed.

Lemma get_model_ready_store_witness :
  get_model bare_environ tokenizer_fails 3
            {| model := Some 0; tokenizer := Some 0; model_loading := true;
               load_calls := 1; tokenizers_built := 1; models_built := 1 |}
  = Some (Returns (Some 0, Some 0),
          {| model := Some 0; tokenizer := Some 0; model_loading := true;
             load_calls := 1; tokenizers_built := 1; models_built := 1 |}).
Proof.
  exact (proj1 (get_model_ready_store bare_environ tokenizer_fails 0
                  {| model := Some 0; tokenizer := Some 0;
                     model_loading := true; load_calls := 1;
                     tokenizers_built := 1; models_built := 1 |}
                  0 0 eq_refl eq_refl)).
Defined.

(** X2. A lazy load that fails. With no model and no load flagged, a call whose
    load raises propagates the exception of the first failing library call;
    it has entered [load_model] once and built no model, [model] is still
    [None] and [model_loading] still [False], and the next call, if its load
    succeeds, loads again and returns a pair. *)
Theorem lazy_load_failure_is_retried
        (env : environ) (lo : load_outcome) (e : exn) (w : world) :
  model w = None -> model_loading w = false ->
  first_failure env lo = Some e ->
  exists w',
    get_model env lo 10 w = Some (Raises e, w')
    /\ model w' = None /\ model_loading w' = false
    /\ load_calls w' = S (load_calls w)
    /\ models_built w' = models_built w
    /\ exists m t w'',
        get_model env all_succeed 10 w' = Some (Returns (Some m, Some t), w'')
        /\ load_calls w'' = S (S (load_calls w)).
Proof.
  intros Hm Hl Hf. destruct w as [m0 t0 l0 c0 tb0 mb0]. simpl in Hm, Hl.
  subst m0 l0. unfold get_model, first_failure in *.
  destruct lo as [a b c]. cbn [login_raises tokenizer_raises model_raises] in Hf.
  destruct (environ_cases env) as [E|E];
    rewrite E in Hf; rewrite !(run_thread_token_only _ _ E);
    cbn in Hf;
    destruct a as [ea|], b as [eb|], c as [ec|];
    try discriminate; injection Hf as <-;
    (eexists; split; [reflexivity|]);
    repeat (split; [reflexivity|]);
    eexists _, _, _; rewrite !(run_thread_token_only _ _ E);
    split; reflexivity.
Qed.

Lemma lazy_load_failure_is_retried_witness :
  exists w',
    get_model bare_environ model_fails 10 cold
    = Some (Raises (LibraryError (lit "fetch failed")), w')
    /\ model w' = None /\ model_loading w' = false
    /\ load_calls w' = 1
    /\ models_built w' = 0
    /\ exists m t w'',
        get_model bare_environ all_succeed 10 w'
        = Some (Returns (Some m, Some t), w'')
        /\ load_calls w'' = 2.
Proof.
  exact (lazy_load_failure_is_retried bare_environ model_fails
           (LibraryError (lit "fetch failed")) cold eq_refl eq_refl eq_refl).
Defined.

(** X3. A failed model fetch leaves half a pair behind: the tokenizer this load
    built stays in its global, [model] stays [None], and [/health] goes on
    reporting that no model is loaded. *)
Theorem model_fetch_failure_keeps_tokenizer
        (env : environ) (lo : load_outcome) (e : exn) (w : world) :
  model w = None -> model_loading w = false ->
  (if str_truthy (hf_token env) then login_raises lo else None) = None ->
  tokenizer_raises lo = None -> model_raises lo = Some e ->
  exists w',
    get_model env lo 10 w = Some (Raises e, w')
    /\ tokenizer w' = Some (tokenizers_built w)
    /\ tokenizers_built w' = S (tokenizers_built w)
    /\ model w' = None
    /\ health_check w' = ok (Health MODEL_NAME false).
Proof.
  intros Hm Hl Hlogin Ht He. destruct w as [m0 t0 l0 c0 tb0 mb0].
  simpl in Hm, Hl. subst m0 l0. unfold get_model.
  destruct lo as [a b c]. cbn [login_raises tokenizer_raises model_raises] in *.
  subst b c.
  destruct (environ_cases env) as [E|E];
    rewrite E in Hlogin; rewrite !(run_thread_token_only _ _ E);
    cbn in Hlogin; subst;
    eexists; split; try reflexivity; repeat split.
Qed.

Lemma model_fetch_failure_keeps_tokenizer_witness :
  exists w',
    get_model bare_environ model_fails 10 cold
    = Some (Raises (LibraryError (lit "fetch failed")), w')
    /\ tokenizer w' = Some 0
    /\ tokenizers_built w' = 1
    /\ model w' = None
    /\ health_check w' = ok (Health MODEL_NAME false).
Proof.
  exact (model_fetch_failure_keeps_tokenizer bare_environ model_fails
           (LibraryError (lit "fetch failed")) cold
           eq_refl eq_refl eq_refl eq_refl eq_refl).
Defined.

Lemma background_load_store (env : environ) (lo : load_outcome) :
  let w := load_model_background env lo cold in
  model_loading w = true
  /\ load_calls w = 1
  /\ match first_failure env lo with
     | None => model w = Some 0 /\ tokenizer w = Some 0
     | Some _ => model w = None
     end.
Proof.
  unfold load_model_background, first_failure. destruct lo as [a b c].
  cbn [login_raises tokenizer_raises model_raises].
  destruct (environ_cases env) as [E|E];
    rewrite E, (run_token_only _ _ E);
    destruct a, b, c; repeat split.
Qed.

(** X4. [load_model_background] on a cold process, whatever the library does.
    Its thread, run on its own, is at the end of the function after 8 steps:
    it returned. When a library call raised, the thread was at the handler
    of lines 105-106 with that exception on the way, so the exception is
    caught there and does not leave the function. [load_model] was entered
    once; the pair is set, and [/health] reports a loaded model, exactly
    when no library call raised; and [model_loading] is [True] at the end in
    either case. *)
Theorem background_load_outcome (env : environ) (lo : load_outcome) :
  let start := {| shared := cold; threads := [Background_entry] |} in
  let c := run env (repeat (0, lo) 8) start in
  let w := load_model_background env lo cold in
  threads c = [Background_finished]
  /\ shared c = w
  /\ model_loading w = true
  /\ load_calls w = 1
  /\ match first_failure env lo with
     | None => model w = Some 0 /\ tokenizer w = Some 0
               /\ health_check w = ok (Health MODEL_NAME true)
     | Some e => model w = None
                 /\ health_check w = ok (Health MODEL_NAME false)
                 /\ exists j,
                     j < 8
                     /\ threads (run env (repeat (0, lo) j) start)
                        = [Background_except e]
     end.
Proof.
  intros start c w. unfold c, w, start, load_model_background, first_failure.
  destruct lo as [a b c0].
  cbn [login_raises tokenizer_raises model_raises].
  destruct (environ_cases env) as [E|E];
    rewrite E, !(run_token_only _ _ E);
    try change (str_truthy (hf_token bare_environ)) with false;
    try change (str_truthy (hf_token (environ_with_token (lit "hf_x") false)))
      with true;
    destruct a, b, c0; cbv beta iota;
    repeat match goal with
           | |- _ /\ _ => split
           end;
    try reflexivity;
    first [ exists 5; split; [lia|]; rewrite (run_token_only _ _ E);
            reflexivity
          | exists 6; split; [lia|]; rewrite (run_token_only _ _ E);
            reflexivity
          | exists 7; split; [lia|]; rewrite (run_token_only _ _ E);
            reflexivity ].
Qed.

(** The store only grows. *)
Definition grows (w w' : world) : Prop :=
  (is_some (model w) = true -> is_some (model w') = true)
  /\ (is_some (tokenizer w) = true -> is_some (tokenizer w') = true)
  /\ (model_loading w = true -> model_loading w' = true)
  /\ load_calls w <= load_calls w'
  /\ tokenizers_built w <= tokenizers_built w'
  /\ models_built w <= models_built w'.

Lemma grows_refl (w : world) : grows w w.
Proof. unfold grows. auto 10. Qed.

Lemma grows_trans (w1 w2 w3 : world) :
  grows w1 w2 -> grows w2 w3 -> grows w1 w3.
Proof. unfold grows. intuition lia. Qed.

Lemma thread_step_grows (env : environ) (lo : load_outcome)
      (w w' : world) (p p' : pc) :
  thread_step env lo w p = Some (w', p') -> grows w w'.
Proof.
  unfold grows.
  destruct p; cbv beta iota delta [thread_step]; intros Hstep;
    step_cases Hstep; simpl; repeat split; intros; try lia; auto;
    match goal with
    | E : model w = Some _ |- _ => now rewrite E
    end.
Qed.

Lemma sys_step_grows (env : environ) (ch : choice) (c : config) :
  grows (shared c) (shared (sys_step env ch c)).
Proof.
  unfold sys_step.
  destruct (nth_error (threads c) (fst ch)) as [p|]; [|apply grows_refl].
  destruct (thread_step env (snd ch) (shared c) p) as [[w' p']|] eqn:Hstep;
    [|apply grows_refl].
  simpl. now apply thread_step_grows with env (snd ch) p p'.
Qed.

Lemma run_grows (env : environ) (sched : list choice) (c : config) :
  grows (shared c) (shared (run env sched c)).
Proof.
  apply (run_invariant env (fun c' => grows (shared c) (shared c'))).
  - intros ch c' H. eapply grows_trans; [exact H|apply sys_step_grows].
  - apply grows_refl.
Qed.

(** X5. No step unsets anything. From any configuration and under any schedule:
    a set [model] stays set, so [/health] never goes back from
    [model_loaded: true] to [false]; a [model_loading] that is [True] stays
    [True], no step clears it; and the counts of loads and of built objects
    never decrease. *)
Theorem store_only_grows (env : environ) (sched : list choice) (c : config) :
  let c' := run env sched c in
  (health_check (shared c) = ok (Health MODEL_NAME true) ->
   health_check (shared c') = ok (Health MODEL_NAME true))
  /\ (forall m, model (shared c) = Some m -> exists m', model (shared c') = Some m')
  /\ (forall t, tokenizer (shared c) = Some t ->
                exists t', tokenizer (shared c') = Some t')
  /\ (model_loading (shared c) = true -> model_loading (shared c') = true)
  /\ load_calls (shared c) <= load_calls (shared c')
  /\ models_built (shared c) <= models_built (shared c').
Proof.
  intros c'. destruct (run_grows env sched c) as (Hm & Ht & Hl & Hc & Htb & Hmb).
  fold c' in Hm, Ht, Hl, Hc, Htb, Hmb. unfold health_check.
  repeat split; auto.
  - destruct (model (shared c)); [|discriminate].
    intros _. destruct (model (shared c')); [reflexivity|].
    specialize (Hm eq_refl). discriminate.
  - intros m E. apply is_some_true, Hm. now rewrite E.
  - intros t E. apply is_some_true, Ht. now rewrite E.
Qed.

Lemma store_only_grows_witness :
  let c := background_started 1 in
  let c' := run bare_environ [(1, all_succeed); (0, all_succeed)] c in
  model_loading (shared c') = true.
Proof.
  intros c c'.
  exact (proj1 (proj2 (proj2 (proj2
           (store_only_grows bare_environ
              [(1, all_succeed); (0, all_succeed)] c)))) eq_refl).
Defined.

(** Without a background thread nobody waits. *)
Definition lazy_thread (p : pc) : Prop :=
  waiting p = false
  /\ match p with
     | Background_entry | Background_except _ | Background_finished => False
     | Load_entry fr | Load_login fr | Load_tokenizer fr | Load_model fr
     | Load_except fr _ | Load_finally fr _ => called_from fr = FromGetModel
     | _ => True
     end.

Lemma thread_step_never_waits (env : environ) (lo : load_outcome)
      (w w' : world) (p p' : pc) :
  thread_step env lo w p = Some (w', p') ->
  model_loading w = false -> lazy_thread p ->
  model_loading w' = false /\ lazy_thread p'.
Proof.
  unfold lazy_thread.
  destruct p; cbv beta iota delta [thread_step leave_load];
    intros Hstep Hl [Hw Hp]; try discriminate; try contradiction;
    step_cases Hstep; simpl in *; try rewrite Hp; simpl;
    repeat split; auto; congruence.
Qed.

Lemma sys_step_never_waits (env : environ) (ch : choice) (c : config) :
  model_loading (shared c) = false /\ Forall lazy_thread (threads c) ->
  model_loading (shared (sys_step env ch c)) = false
  /\ Forall lazy_thread (threads (sys_step env ch c)).
Proof.
  intros [Hl Hts]. unfold sys_step.
  destruct (nth_error (threads c) (fst ch)) as [p|] eqn:Hnth; [|now split].
  destruct (thread_step env (snd ch) (shared c) p) as [[w' p']|] eqn:Hstep;
    [|now split].
  destruct (thread_step_never_waits _ _ _ _ _ _ Hstep Hl
              (Forall_nth_error _ _ _ _ Hts Hnth)) as [Hl' Hp'].
  split; simpl; [exact Hl'|]. now apply Forall_set_nth.
Qed.

(** X6. With lazy loading the loop of lines 52-55 is never entered: under every
    schedule of the [n] callers [model_loading] is [False] and none of them
    is waiting. *)
Theorem lazy_callers_never_wait
        (env : environ) (n : nat) (sched : list choice) :
  EAGER_LOAD env = false ->
  let c := run env sched (startup env n) in
  model_loading (shared c) = false
  /\ Forall (fun p => waiting p = false) (threads c)
  /\ List.length (threads c) = n.
Proof.
  intros Hlazy c.
  assert (H : (model_loading (shared c) = false
               /\ Forall lazy_thread (threads c))
              /\ List.length (threads c) = n).
  { unfold c.
    apply (run_invariant env
             (fun c => (model_loading (shared c) = false
                        /\ Forall lazy_thread (threads c))
                       /\ List.length (threads c) = n)).
    - intros ch c0 [H Hn]. split; [now apply sys_step_never_waits|].
      unfold sys_step.
      destruct (nth_error (threads c0) (fst ch)) as [p|]; [|exact Hn].
      destruct (thread_step env (snd ch) (shared c0) p) as [[w' p']|];
        [|exact Hn].
      simpl. rewrite <- Hn. clear. generalize (fst ch).
      induction (threads c0) as [|q l IH]; intros i; [reflexivity|].
      destruct i; simpl; [reflexivity|]. now rewrite IH.
    - unfold startup. rewrite Hlazy. simpl. split; [split; [reflexivity|]|].
      + apply Forall_forall. intros p Hp. apply repeat_spec in Hp.
        subst p. now split.
      + apply repeat_length. }
  destruct H as [[Hl Hts] Hn]. split; [exact Hl|]. split; [|exact Hn].
  eapply Forall_impl; [|exact Hts]. now intros p [Hw _].
Qed.

Lemma lazy_callers_never_wait_witness :
  let c := run bare_environ
               [(0, all_succeed); (1, all_succeed); (0, all_succeed);
                (1, all_succeed); (1, all_succeed)]
               (startup bare_environ 2) in
  model_loading (shared c) = false
  /\ Forall (fun p => waiting p = false) (threads c)
  /\ List.length (threads c) = 2.
Proof.
  exact (lazy_callers_never_wait bare_environ 2
           [(0, all_succeed); (1, all_succeed); (0, all_succeed);
            (1, all_succeed); (1, all_succeed)] eq_refl).
Defined.

(* ================================================================== *)
(** * Further properties of [/generate] *)

(** [data.get('max_length', 100)] and [data.get('temperature', 0.7)] *)
Definition requested_max_length (kv : list (pystr * json)) : json :=
  match lookup (lit "max_length") kv with
  | Some v => v
  | None => JInt 100
  end.

Definition requested_temperature (kv : list (pystr * json)) : json :=
  match lookup (lit "temperature") kv with
  | Some v => v
  | None => default_temperature
  end.

(** What the library calls of lines 164-177 come to. *)
Definition generation (lib : library) (mo to : option handle)
           (prompt max_length temperature : json) : response * list event :=
  match to with
  | None => (internal_error TypeError, [])
  | Some t =>
      match tokenizer_encode lib t prompt with
      | Raises e => (internal_error e, [Tokenize t prompt])
      | Returns ids =>
          match mo with
          | None => (internal_error AttributeError, [Tokenize t prompt])
          | Some m =>
              match model_generate lib m ids max_length temperature with
              | Raises e =>
                  (internal_error e,
                   [Tokenize t prompt; Generate m max_length temperature])
              | Returns outs =>
                  (match tokenizer_decode lib t outs with
                   | Raises e => internal_error e
                   | Returns text => ok (Generated prompt text MODEL_NAME)
                   end,
                   [Tokenize t prompt; Generate m max_length temperature;
                    Decode t])
              end
          end
      end
  end.

(** [/generate] on an object body with a prompt, by what the validation of
    lines 156-161 finds. *)
Lemma generate_object (lib : library) (mo to : option handle)
      (kv : list (pystr * json)) (p : json) :
  lookup (lit "prompt") kv = Some p ->
  generate_text lib (Returns ((mo, to) : handles)) (Returns (JObj kv))
  = match py_gt_int (requested_max_length kv) 500 with
    | Raises e => (internal_error e, [])
    | Returns true => (max_length_error, [])
    | Returns false =>
        match py_slice_to 50 p with
        | Raises e => (internal_error e, [])
        | Returns _ =>
            generation lib mo to p (requested_max_length kv)
                       (requested_temperature kv)
        end
    end.
Proof.
  intros Hp. unfold_handler.
  rewrite (truthy_obj_with _ _ Hp), Hp. cbv beta iota delta [negb].
  fold (requested_max_length kv). fold (requested_temperature kv).
  destruct (py_gt_int (requested_max_length kv) 500) as [[|]|e];
    try reflexivity.
  destruct (py_slice_to 50 p) as [s|e]; [|reflexivity].
  unfold generation. destruct to as [t|]; [|reflexivity].
  cbv beta iota. simpl app.
  destruct (tokenizer_encode lib t p) as [ids|e]; [|reflexivity].
  destruct mo as [m|]; [|reflexivity]. cbv beta iota. simpl app.
  destruct (model_generate lib m ids (requested_max_length kv)
                           (requested_temperature kv)) as [outs|e];
    [|reflexivity].
  destruct (tokenizer_decode lib t outs); reflexivity.
Qed.

(** [/generate] on a body that is not an object. *)
Lemma generate_not_object (lib : library) (h : handles) (data : json) :
  (forall kv, data <> JObj kv) ->
  generate_text lib (Returns h) (Returns data)
  = (if negb (truthy data) then missing_prompt_error
     else match py_in (lit "prompt") data with
          | Returns false => missing_prompt_error
          | _ => internal_error TypeError
          end, []).
Proof.
  intros Hno. unfold_handler. destruct h as [mo to].
  destruct data as [|b|z|f|s|l|kv]; try (now destruct (Hno kv)).
  - reflexivity.
  - destruct b; reflexivity.
  - simpl. destruct (z =? 0)%Z; reflexivity.
  - destruct f as [| |m e]; simpl; try reflexivity.
    destruct (m =? 0)%Z; reflexivity.
  - destruct s as [|c s]; [reflexivity|]. cbn [truthy negb].
    destruct (contains (lit "prompt") (c :: s)); reflexivity.
  - destruct l as [|x l]; [reflexivity|]. cbn [truthy negb].
    destruct (existsb (fun x0 => eq_str x0 (lit "prompt")) (x :: l));
      reflexivity.
Qed.

Lemma generation_discipline (lib : library) (mo to : option handle)
      (p ml temp : json) :
  let r := fst (generation lib mo to p ml temp) in
  let tr := snd (generation lib mo to p ml temp) in
  (status r = 200 \/ status r = 500)
  /\ (status r = 200 ->
      exists m t text,
        mo = Some m /\ to = Some t
        /\ r = ok (Generated p text MODEL_NAME)
        /\ tr = [Tokenize t p; Generate m ml temp; Decode t])
  /\ (tr = []
      \/ exists t, to = Some t
                   /\ (tr = [Tokenize t p]
                       \/ exists m, mo = Some m
                                    /\ (tr = [Tokenize t p; Generate m ml temp]
                                        \/ tr = [Tokenize t p;
                                                 Generate m ml temp;
                                                 Decode t]))).
Proof.
  unfold generation. destruct to as [t|]; [|simpl; intuition discriminate].
  destruct (tokenizer_encode lib t p) as [ids|e];
    [|simpl; intuition (try discriminate); eauto].
  destruct mo as [m|]; [|simpl; intuition (try discriminate); eauto].
  destruct (model_generate lib m ids ml temp) as [outs|e];
    [|simpl; intuition (try discriminate); eauto 7].
  destruct (tokenizer_decode lib t outs) as [text|e]; simpl.
  - split; [auto|]. split; [eauto 10|]. right. eauto 10.
  - split; [auto|]. split; [discriminate|]. right. eauto 10.
Qed.



(** X8. A body that is not a JSON object never reaches the library. A falsy one
    ([null], [false], [0], an empty string or list) is answered with the 400
    missing-prompt error, and so is a string that does not contain
    ["prompt"] and a list that has no element ["prompt"]; a non-zero number,
    [true], a string containing ["prompt"] and a list with an element
    ["prompt"] raise [TypeError] inside the handler and are answered 500. *)
Theorem generate_body_not_object
        (lib : library) (h : handles) (data : json) :
  (forall kv, data <> JObj kv) ->
  let r := fst (generate_text lib (Returns h) (Returns data)) in
  snd (generate_text lib (Returns h) (Returns data)) = []
  /\ (r = missing_prompt_error \/ r = internal_error TypeError)
  /\ (truthy data = false -> r = missing_prompt_error)
  /\ (forall s, data = JStr s -> s <> [] ->
                (r = internal_error TypeError
                 <-> contains (lit "prompt") s = true))
  /\ (forall l, data = JArr l -> l <> [] ->
                (r = internal_error TypeError
                 <-> existsb (fun x => eq_str x (lit "prompt")) l = true))
  /\ (truthy data = true ->
      (forall s, data <> JStr s) -> (forall l, data <> JArr l) ->
      r = internal_error TypeError).
Proof.
  intros Hno r. unfold r. rewrite (generate_not_object lib h data Hno).
  cbn [fst snd]. split; [reflexivity|]. repeat split.
  - destruct (negb (truthy data)); [now left|].
    destruct (py_in (lit "prompt") data) as [[|]|e]; auto.
  - now intros ->.
  - subst data. destruct s; [congruence|]. cbn [truthy negb py_in].
    destruct (contains (lit "prompt") (c :: s)); [reflexivity|discriminate].
  - subst data. destruct s; [congruence|]. cbn [truthy negb py_in].
    intros ->. reflexivity.
  - subst data. destruct l; [congruence|]. cbn [truthy negb py_in].
    destruct (existsb _ (j :: l)); [reflexivity|discriminate].
  - subst data. destruct l; [congruence|]. cbn [truthy negb py_in].
    intros ->. reflexivity.
  - intros Ht Hs Hl. rewrite Ht. cbn [negb].
    destruct data; try reflexivity.
    + now destruct (Hs s).
    + now destruct (Hl l).
    + now destruct (Hno kv).
Qed.

Lemma generate_body_not_object_witness :
  let data := JStr (lit "no prompt here") in
  let r := fst (generate_text (echo_library 1 []) (Returns (Some 0, Some 0))
                              (Returns data)) in
  snd (generate_text (echo_library 1 []) (Returns (Some 0, Some 0))
                     (Returns data)) = []
  /\ r = internal_error TypeError.
Proof.
  intros data r.
  destruct (generate_body_not_object (echo_library 1 []) (Some 0, Some 0) data)
    as (Htr & _ & _ & Hstr & _); [discriminate|].
  split; [exact Htr|].
  apply (Hstr (lit "no prompt here") eq_refl); [discriminate|reflexivity].
Defined.

(** X9. A [max_length] that is not an integer. [null], a string, a list and an
    object cannot be compared with 500: the handler answers 500 and calls
    nothing. A float is compared exactly and rejected with 400 when it is
    above 500. A boolean compares as 0 or 1 and is never rejected. *)
Theorem generate_max_length_not_integer
        (lib : library) (mo to : option handle) (kv : list (pystr * json))
        (p v : json) :
  lookup (lit "prompt") kv = Some p ->
  lookup (lit "max_length") kv = Some v ->
  let res := generate_text lib (Returns ((mo, to) : handles))
                           (Returns (JObj kv)) in
  (match v with
   | JNull | JStr _ | JArr _ | JObj _ => True
   | _ => False
   end -> res = (internal_error TypeError, []))
  /\ (forall f, v = JFloat f -> float_gt_int f 500 = true ->
                res = (max_length_error, []))
  /\ (forall b, v = JBool b -> fst res <> max_length_error).
Proof.
  intros Hp Hv res. unfold res.
  rewrite (generate_object lib mo to kv p Hp).
  assert (Hml : requested_max_length kv = v)
    by (unfold requested_max_length; now rewrite Hv).
  rewrite !Hml. repeat split.
  - destruct v; try contradiction; reflexivity.
  - intros f -> Hf. cbn [py_gt_int]. now rewrite Hf.
  - intros b -> Habs. cbn [py_gt_int] in Habs.
    assert (Hlt : (500 <? (if b then 1 else 0))%Z = false) by now destruct b.
    rewrite Hlt in Habs.
    destruct (py_slice_to 50 p); [|discriminate].
    destruct (generation_discipline lib mo to p (JBool b)
                (requested_temperature kv)) as ([Hs|Hs] & _).
    + cbv zeta in Hs. rewrite Habs in Hs. discriminate.
    + cbv zeta in Hs. rewrite Habs in Hs. discriminate.
Qed.

Lemma generate_max_length_not_integer_witness :
  let kv := [(lit "prompt", JStr (lit "Once"));
             (lit "max_length", JFloat (FFin 1001 (-1)))] in
  generate_text (echo_library 1 []) (Returns ((Some 0, Some 0) : handles))
                (Returns (JObj kv))
  = (max_length_error, []).
Proof.
  intros kv.
  exact (proj1 (proj2
           (generate_max_length_not_integer (echo_library 1 [])
              (Some 0) (Some 0) kv (JStr (lit "Once"))
              (JFloat (FFin 1001 (-1))) eq_refl eq_refl))
           (FFin 1001 (-1)) eq_refl eq_refl).
Defined.

(* ================================================================== *)
(** * Further properties of [/chat] *)

(** What the library calls of lines 222-244 come to. *)
Definition chat_generation (lib : library) (mo to : option handle)
           (prompt : pystr) : response * list event :=
  match to with
  | None => (internal_error TypeError, [])
  | Some t =>
      match tokenizer_encode lib t (JStr prompt) with
      | Raises e => (internal_error e, [Tokenize t (JStr prompt)])
      | Returns ids =>
          match mo with
          | None => (internal_error AttributeError, [Tokenize t (JStr prompt)])
          | Some m =>
              match model_generate lib m ids (JInt 500) default_temperature with
              | Raises e =>
                  (internal_error e,
                   [Tokenize t (JStr prompt);
                    Generate m (JInt 500) default_temperature])
              | Returns outs =>
                  (match tokenizer_decode lib t outs with
                   | Raises e => internal_error e
                   | Returns text =>
                       ok (ChatText (strip_prompt prompt text) MODEL_NAME)
                   end,
                   [Tokenize t (JStr prompt);
                    Generate m (JInt 500) default_temperature;
                    Decode t])
              end
          end
      end
  end.

Lemma chat_unfold (lib : library) (mo to : option handle) (data : json) :
  chat lib (Returns ((mo, to) : handles)) (Returns data)
  = match full_prompt lib data with
    | Raises e => (internal_error e, [])
    | Returns prompt => chat_generation lib mo to prompt
    end.
Proof.
  unfold_handler. destruct (full_prompt lib data) as [prompt|e];
    [|reflexivity].
  unfold chat_generation. destruct to as [t|]; [|reflexivity].
  cbv beta iota. simpl app.
  destruct (tokenizer_encode lib t (JStr prompt)) as [ids|e]; [|reflexivity].
  destruct mo as [m|]; [|reflexivity]. cbv beta iota. simpl app.
  destruct (model_generate lib m ids (JInt 500) default_temperature)
    as [outs|e]; [|reflexivity].
  destruct (tokenizer_decode lib t outs); reflexivity.
Qed.



Definition is_object (v : json) : bool :=
  match v with
  | JObj _ => true
  | _ => false
  end.

Lemma message_line_object (lib : library) (kv : list (pystr * json)) :
  exists line, message_line lib (JObj kv) = Returns line.
Proof. unfold message_line, py_get. eexists. reflexivity. Qed.

Lemma message_line_not_object (lib : library) (m : json) :
  is_object m = false -> message_line lib m = Raises AttributeError.
Proof. destruct m; try reflexivity. discriminate. Qed.

Lemma message_lines (lib : library) (ms : list json) :
  if forallb is_object ms
  then exists lines, map_result (message_line lib) ms = Returns lines
                     /\ List.length lines = List.length ms
  else map_result (message_line lib) ms = Raises AttributeError.
Proof.
  induction ms as [|m ms IH]; [exists []; now split|].
  cbn [forallb map_result]. destruct (is_object m) eqn:Hm.
  - destruct m; try discriminate.
    destruct (message_line_object lib kv) as [line ->]. cbn [andb].
    destruct (forallb is_object ms).
    + destruct IH as (lines & -> & Hlen). exists (line :: lines).
      split; [reflexivity|]. simpl. now rewrite Hlen.
    + now rewrite IH.
  - cbn [andb]. now rewrite (message_line_not_object lib m Hm).
Qed.

(** X11. The [messages] list. With the context absent or a string, [/chat]
    builds a prompt exactly when every element of [messages] is a JSON
    object, whatever keys it has (a missing [role] or [content] does not
    raise); one element that is not an object ([m.get] on a string, a number,
    [null] or a list) makes the handler answer 500 before any library
    call. *)
Theorem chat_messages_must_be_objects
        (lib : library) (mo to : option handle) (kv : list (pystr * json))
        (ms : list json) :
  lookup (lit "messages") kv = Some (JArr ms) ->
  match lookup (lit "manuscriptContext") kv with
  | None | Some (JStr _) => True
  | Some _ => False
  end ->
  if forallb is_object ms
  then exists prompt, full_prompt lib (JObj kv) = Returns prompt
  else chat lib (Returns ((mo, to) : handles)) (Returns (JObj kv))
       = (internal_error AttributeError, []).
Proof.
  intros Hms Hctx.
  assert (Hsp : exists sp,
             system_prompt lib
               match lookup (lit "manuscriptContext") kv with
               | Some v => v
               | None => JStr []
               end = Returns sp).
  { destruct (lookup (lit "manuscriptContext") kv) as [v|];
      [|eexists; reflexivity].
    destruct v; try contradiction. unfold system_prompt.
    destruct (truthy (JStr s)); eexists; reflexivity. }
  destruct Hsp as [sp Hsp].
  pose proof (message_lines lib ms) as Hlines.
  destruct (forallb is_object ms).
  - destruct Hlines as (lines & Hl & _).
    unfold full_prompt, py_get. rewrite Hms, Hsp.
    unfold message_prompt, py_iter. rewrite Hl. eexists. reflexivity.
  - rewrite chat_unfold. unfold full_prompt, py_get. rewrite Hms, Hsp.
    unfold message_prompt, py_iter. now rewrite Hlines.
Qed.

Lemma chat_messages_must_be_objects_witness :
  let kv := [(lit "messages",
              JArr [JObj [(lit "role", JStr (lit "user"))];
                    JStr (lit "and then?")])] in
  chat (echo_library 1 []) (Returns ((Some 0, Some 0) : handles))
       (Returns (JObj kv))
  = (internal_error AttributeError, []).
Proof.
  intros kv.
  exact (chat_messages_must_be_objects (echo_library 1 []) (Some 0) (Some 0)
           kv [JObj [(lit "role", JStr (lit "user"))];
               JStr (lit "and then?")] eq_refl I).
Defined.

(** X12. A [manuscriptContext] that is absent or falsy (an empty string,
    [null], [0], [false], an empty list or object) adds nothing to the
    prompt, not even the header; a non-zero number or [true] cannot be sliced and makes the
    handler answer 500 before any library call. *)
Theorem chat_context_edge_cases
        (lib : library) (mo to : option handle) (kv : list (pystr * json))
        (mp : pystr) :
  message_prompt lib (match lookup (lit "messages") kv with
                      | Some v => v
                      | None => JArr []
                      end) = Returns mp ->
  (match lookup (lit "manuscriptContext") kv with
   | None => True
   | Some v => truthy v = false
   end ->
   full_prompt lib (JObj kv) = Returns (SYSTEM_PROMPT ++ [nl; nl] ++ mp))
  /\ (forall v, lookup (lit "manuscriptContext") kv = Some v ->
                truthy v = true ->
                match v with
                | JBool _ | JInt _ | JFloat _ => True
                | _ => False
                end ->
                chat lib (Returns ((mo, to) : handles)) (Returns (JObj kv))
                = (internal_error TypeError, [])).
Proof.
  intros Hmp. split.
  - intros Hctx. unfold full_prompt, py_get. rewrite Hmp.
    destruct (lookup (lit "manuscriptContext") kv) as [v|].
    + unfold system_prompt. now rewrite Hctx.
    + reflexivity.
  - intros v Hv Ht Hkind. rewrite chat_unfold.
    unfold full_prompt, py_get. rewrite Hv. unfold system_prompt.
    rewrite Ht. destruct v; try contradiction; reflexivity.
Qed.

Lemma chat_context_edge_cases_witness :
  let kv := [(lit "manuscriptContext", JInt 7)] in
  full_prompt (echo_library 1 [])
              (JObj [(lit "manuscriptContext", JStr [])])
  = Returns (SYSTEM_PROMPT ++ [nl; nl] ++ [])
  /\ chat (echo_library 1 []) (Returns ((Some 0, Some 0) : handles))
          (Returns (JObj kv))
     = (internal_error TypeError, []).
Proof.
  intros kv. split.
  - exact (proj1 (chat_context_edge_cases (echo_library 1 []) None None
                    [(lit "manuscriptContext", JStr [])] [] eq_refl) eq_refl).
  - exact (proj2 (chat_context_edge_cases (echo_library 1 []) (Some 0) (Some 0)
                    kv [] eq_refl) (JInt 7) eq_refl eq_refl I).
Defined.

(* ================================================================== *)
(** * The text the endpoints answer is trimmed *)

Lemma lstrip_head (s : pystr) :
  match lstrip s with
  | [] => True
  | c :: _ => isspace c = false
  end.
Proof.
  induction s as [|c s IH]; simpl; [exact I|].
  destruct (isspace c) eqn:E; [exact IH|exact E].
Qed.

Lemma lstrip_fixed (s : pystr) :
  match s with
  | [] => True
  | c :: _ => isspace c = false
  end -> lstrip s = s.
Proof. destruct s as [|c s]; simpl; [reflexivity|]. now intros ->. Qed.

Lemma lstrip_keeps_last (x : pystr) (c : char) :
  isspace c = false -> exists y, lstrip (x ++ [c]) = y ++ [c].
Proof.
  intros Hc. induction x as [|d x IH]; simpl.
  - rewrite Hc. now exists [].
  - destruct (isspace d); [exact IH|]. now exists (d :: x).
Qed.

(** Stripping a string whose first character is not a space keeps that
    first character. *)
Lemma rstrip_keeps_head (c : char) (s : pystr) :
  isspace c = false -> exists r, rstrip (c :: s) = c :: r.
Proof.
  intros Hc. unfold rstrip. simpl rev.
  destruct (lstrip_keeps_last (rev s) c Hc) as [y ->].
  rewrite rev_app_distr. simpl. now exists (rev y).
Qed.

Lemma strip_fixed (s : pystr) : strip (strip s) = strip s.
Proof.
  unfold strip.
  assert (Hl : lstrip (rstrip (lstrip s)) = rstrip (lstrip s)).
  { pose proof (lstrip_head s) as Hh.
    destruct (lstrip s) as [|c a]; [reflexivity|].
    destruct (rstrip_keeps_head c a Hh) as [r ->].
    simpl. now rewrite Hh. }
  rewrite Hl. unfold rstrip. rewrite rev_involutive.
  f_equal. apply lstrip_fixed.
  pose proof (lstrip_head (rev (lstrip s))) as Hh.
  now destruct (lstrip (rev (lstrip s))).
Qed.

Lemma strip_no_longer (n : nat) (g : pystr) :
  List.length (strip (slice_from n g)) <= List.length g - n.
Proof.
  etransitivity; [apply strip_length|].
  unfold slice_from. now rewrite length_skipn.
Qed.

(** X13. When the decoded output starts with the prompt, the text [/chat]
    answers has no white space at either end: stripping it again gives the
    same text. (An output that does not start with the prompt is answered as
    it is, white space included.) *)
Theorem chat_reply_is_trimmed (prompt g : pystr) :
  startswith prompt g = true ->
  strip (strip_prompt prompt g) = strip_prompt prompt g
  /\ List.length (strip_prompt prompt g) <= List.length g - List.length prompt
  /\ match strip_prompt prompt g with
     | [] => True
     | c :: _ => isspace c = false
     end.
Proof.
  intros H. unfold strip_prompt. rewrite H. split; [apply strip_fixed|].
  split; [apply strip_no_longer|].
  rewrite <- strip_fixed. unfold strip at 1.
  pose proof (lstrip_head (strip (slice_from (List.length prompt) g))) as Hh.
  destruct (lstrip (strip (slice_from (List.length prompt) g))) as [|c a];
    [exact I|].
  destruct (rstrip_keeps_head c a Hh) as [r ->]. exact Hh.
Qed.

Lemma chat_reply_is_trimmed_witness :
  strip (strip_prompt (lit "Q:") (lit "Q:  an answer  "))
  = strip_prompt (lit "Q:") (lit "Q:  an answer  ").
Proof.
  exact (proj1 (chat_reply_is_trimmed (lit "Q:") (lit "Q:  an answer  ")
                  eq_refl)).
Defined.

(* ================================================================== *)
(** * Further properties of the VM variant *)

Definition vm_not_loaded : VM.response * list event :=
  ({| VM.status := 503; VM.content := VM.Error (lit "Model not loaded") |}, []).

Definition vm_no_prompt : VM.response * list event :=
  ({| VM.status := 400; VM.content := VM.Error (lit "No prompt provided") |}, []).

Definition vm_requested (k : string) (default : json)
           (kv : list (pystr * json)) : json :=
  match lookup (lit k) kv with
  | Some v => v
  | None => default
  end.

Lemma vm_chat_object (lib : library) (w : VM.world) (m t : handle)
      (kv : list (pystr * json)) :
  VM.model w = Some m -> VM.tokenizer w = Some t ->
  VM.chat lib w (Returns (JObj kv))
  = if negb (truthy (vm_requested "prompt" (JStr []) kv)) then vm_no_prompt
    else try_except
           (VM.chat_try lib w (vm_requested "prompt" (JStr []) kv)
                        (vm_requested "max_tokens" (JInt 200) kv)
                        (vm_requested "temperature" default_temperature kv))
           (fun e => {| VM.status := 500; VM.content := VM.Failure e |}).
Proof. intros Hm Ht. unfold VM.chat. rewrite Hm, Ht. reflexivity. Qed.

(** X14. The 503 gate. While either global is unset, [/chat] and [/generate]
    answer 503 "Model not loaded" to every request, malformed ones
    included, and call nothing; after a start-up load that succeeded they
    never answer 503. *)
Theorem vm_not_loaded_gate
        (lib : library) (w : VM.world) (req : call_result json) :
  (VM.model w = None \/ VM.tokenizer w = None ->
   VM.chat lib w req = vm_not_loaded /\ VM.generate lib w req = vm_not_loaded)
  /\ VM.status (fst (VM.chat lib (snd (VM.load_model None None VM.cold)) req))
     <> 503.
Proof.
  split.
  - intros H. unfold VM.generate, VM.chat.
    destruct (VM.model w), (VM.tokenizer w);
      destruct H; try discriminate; now split.
  - unfold VM.chat. cbn [VM.load_model snd VM.model VM.tokenizer].
    destruct req as [data|e]; [|destruct e; discriminate].
    destruct (py_get data (lit "prompt") (JStr [])) as [p|e];
      [|destruct e; discriminate].
    destruct (py_get data (lit "max_tokens") (JInt 200)) as [mt|e];
      [|destruct e; discriminate].
    destruct (py_get data (lit "temperature") default_temperature) as [tp|e];
      [|destruct e; discriminate].
    destruct (negb (truthy p)); [discriminate|].
    unfold try_except.
    destruct (VM.chat_try lib _ p mt tp []) as [[r|e] tr] eqn:E;
      [|discriminate].
    unfold VM.chat_try in E. run_comp. cbn in E.
    destruct (tokenizer_encode lib 0 p) as [ids|e]; [|discriminate].
    cbn in E.
    destruct (model_generate lib 0 ids mt tp) as [outs|e]; [|discriminate].
    cbn in E.
    destruct (tokenizer_decode lib 0 outs) as [text|e]; [|discriminate].
    cbn in E.
    destruct (py_len p) as [n|e]; [|discriminate].
    injection E as <- _. discriminate.
Qed.

Lemma vm_not_loaded_gate_witness :
  VM.chat (echo_library 1 [])
          (snd (VM.load_model None (Some (LibraryError (lit "fetch failed")))
                              VM.cold))
          (Raises TypeError)
  = vm_not_loaded.
Proof.
  exact (proj1 (proj1
           (vm_not_loaded_gate (echo_library 1 [])
              (snd (VM.load_model None
                      (Some (LibraryError (lit "fetch failed"))) VM.cold))
              (Raises TypeError))
           (or_introl eq_refl))).
Defined.

Lemma vm_chat_not_object (lib : library) (w : VM.world) (m t : handle)
      (data : json) :
  VM.model w = Some m -> VM.tokenizer w = Some t ->
  (forall kv, data <> JObj kv) ->
  VM.chat lib w (Returns data)
  = ({| VM.status := 500; VM.content := VM.Unhandled AttributeError |}, []).
Proof.
  intros Hm Ht Hno. unfold VM.chat. rewrite Hm, Ht.
  destruct data; try reflexivity. now destruct (Hno kv).
Qed.

(** X15. Bodies the loaded VM rejects. An object without [prompt], or with a
    falsy one, is answered 400 "No prompt provided" with no library call. A
    body that is not an object is not answered by the handler at all:
    [data.get] raises [AttributeError] outside the [try] (lines 67-70) and
    the exception reaches the framework. *)
Theorem vm_rejected_bodies
        (lib : library) (w : VM.world) (m t : handle) (data : json) :
  VM.model w = Some m -> VM.tokenizer w = Some t ->
  (forall kv, data = JObj kv ->
              truthy (vm_requested "prompt" (JStr []) kv) = false ->
              VM.chat lib w (Returns data) = vm_no_prompt)
  /\ ((forall kv, data <> JObj kv) ->
      VM.chat lib w (Returns data)
      = ({| VM.status := 500; VM.content := VM.Unhandled AttributeError |}, [])).
Proof.
  intros Hm Ht. split.
  - intros kv -> Hp. rewrite (vm_chat_object lib w m t kv Hm Ht).
    now rewrite Hp.
  - now apply vm_chat_not_object with m t.
Qed.

Lemma vm_rejected_bodies_witness :
  let w := snd (VM.load_model None None VM.cold) in
  VM.chat (echo_library 1 []) w (Returns (JObj [(lit "max_tokens", JInt 5)]))
  = vm_no_prompt
  /\ VM.chat (echo_library 1 []) w (Returns (JArr [JStr (lit "prompt")]))
     = ({| VM.status := 500; VM.content := VM.Unhandled AttributeError |}, []).
Proof.
  intros w. split.
  - exact (proj1 (vm_rejected_bodies (echo_library 1 []) w 0 0
                    (JObj [(lit "max_tokens", JInt 5)]) eq_refl eq_refl)
                 [(lit "max_tokens", JInt 5)] eq_refl eq_refl).
  - apply (proj2 (vm_rejected_bodies (echo_library 1 []) w 0 0
                    (JArr [JStr (lit "prompt")]) eq_refl eq_refl)).
    discriminate.
Defined.

(** What the [try] of the VM's [chat] comes to. *)
Lemma vm_chat_try_cases (lib : library) (w : VM.world) (m t : handle)
      (p mt tp : json) :
  VM.model w = Some m -> VM.tokenizer w = Some t ->
  try_except (VM.chat_try lib w p mt tp)
             (fun e => {| VM.status := 500; VM.content := VM.Failure e |})
  = match tokenizer_encode lib t p with
    | Raises e =>
        ({| VM.status := 500; VM.content := VM.Failure e |}, [Tokenize t p])
    | Returns ids =>
        match model_generate lib m ids mt tp with
        | Raises e =>
            ({| VM.status := 500; VM.content := VM.Failure e |},
             [Tokenize t p; Generate m mt tp])
        | Returns outs =>
            (match tokenizer_decode lib t outs with
             | Raises e => {| VM.status := 500; VM.content := VM.Failure e |}
             | Returns g =>
                 match py_len p with
                 | Raises e =>
                     {| VM.status := 500; VM.content := VM.Failure e |}
                 | Returns n =>
                     {| VM.status := 200;
                        VM.content := VM.Reply (strip (slice_from n g))
                                               VM.MODEL_NAME VM.DEPLOYMENT |}
                 end
             end,
             [Tokenize t p; Generate m mt tp; Decode t])
        end
    end.
Proof.
  intros Hm Ht. unfold VM.chat_try. rewrite Hm, Ht.
  cbv beta iota delta [try_except bind lift ret raise emit call_tokenizer
                       call_generate call_decode]. simpl app.
  destruct (tokenizer_encode lib t p) as [ids|e]; [|reflexivity].
  cbv beta iota. simpl app.
  destruct (model_generate lib m ids mt tp) as [outs|e]; [|reflexivity].
  cbv beta iota. simpl app.
  destruct (tokenizer_decode lib t outs) as [g|e]; [|reflexivity].
  cbv beta iota.
  destruct (py_len p); reflexivity.
Qed.

(** X16. A served VM request. With a non-empty string prompt and a library that
    returns, [/chat] tokenizes the prompt, generates with the requested
    [max_tokens] (200 when absent; no upper bound is checked) and
    [temperature], decodes, and answers 200 with the decoded text minus its
    first [len(prompt)] characters, stripped. That text is trimmed and at
    most [len(output) - len(prompt)] long; it is what the serverless variant
    would answer when the output starts with the prompt, and it is cut just
    the same when the output does not. *)
Theorem vm_chat_reply
        (lib : library) (w : VM.world) (m t : handle)
        (kv : list (pystr * json)) (p : pystr)
        (ids : tokens lib) (outs : outputs lib) (g : pystr) :
  VM.model w = Some m -> VM.tokenizer w = Some t ->
  lookup (lit "prompt") kv = Some (JStr p) -> p <> [] ->
  tokenizer_encode lib t (JStr p) = Returns ids ->
  model_generate lib m ids (vm_requested "max_tokens" (JInt 200) kv)
                 (vm_requested "temperature" default_temperature kv)
  = Returns outs ->
  tokenizer_decode lib t outs = Returns g ->
  let reply := strip (slice_from (List.length p) g) in
  VM.chat lib w (Returns (JObj kv))
  = ({| VM.status := 200;
        VM.content := VM.Reply reply VM.MODEL_NAME VM.DEPLOYMENT |},
     [Tokenize t (JStr p);
      Generate m (vm_requested "max_tokens" (JInt 200) kv)
               (vm_requested "temperature" default_temperature kv);
      Decode t])
  /\ strip reply = reply
  /\ List.length reply <= List.length g - List.length p
  /\ (startswith p g = true -> reply = strip_prompt p g)
  /\ (List.length g <= List.length p -> reply = []).
Proof.
  intros Hm Ht Hp Hne He Hg Hd reply. split; [|split; [|split; [|split]]].
  - rewrite (vm_chat_object lib w m t kv Hm Ht).
    assert (Hpr : vm_requested "prompt" (JStr []) kv = JStr p)
      by (unfold vm_requested; now rewrite Hp).
    rewrite Hpr. destruct p as [|c p]; [congruence|]. cbn [truthy negb].
    rewrite (vm_chat_try_cases lib w m t _ _ _ Hm Ht), He, Hg, Hd.
    reflexivity.
  - apply strip_fixed.
  - apply strip_no_longer.
  - intros Hs. unfold strip_prompt. now rewrite Hs.
  - intros Hlen. unfold reply, slice_from.
    now rewrite skipn_all2.
Qed.

Lemma vm_chat_reply_witness :
  let w := snd (VM.load_model None None VM.cold) in
  let kv := [(lit "prompt", JStr (lit "Once")); (lit "max_tokens", JInt 9000)] in
  VM.chat (echo_library 0 (lit "Twice upon a time ")) w (Returns (JObj kv))
  = ({| VM.status := 200;
        VM.content := VM.Reply (lit "e upon a time")
                               VM.MODEL_NAME VM.DEPLOYMENT |},
     [Tokenize 0 (JStr (lit "Once"));
      Generate 0 (JInt 9000) default_temperature;
      Decode 0]).
Proof.
  intros w kv.
  exact (proj1 (vm_chat_reply (echo_library 0 (lit "Twice upon a time "))
                  w 0 0 kv (lit "Once") (lit "Once")
                  (lit "Twice upon a time ") (lit "Twice upon a time ")
                  eq_refl eq_refl eq_refl ltac:(discriminate)
                  eq_refl eq_refl eq_refl)).
Defined.

(** X17. Whatever the request and the library do, the loaded VM's handler either
    lets an exception reach the framework before any library call, or
    answers 200, 400 or 500 itself; a 400 comes without a library call, and
    a library exception inside the [try] is answered 500 with that
    exception. *)
Theorem vm_chat_discipline
        (lib : library) (w : VM.world) (m t : handle) (req : call_result json) :
  VM.model w = Some m -> VM.tokenizer w = Some t ->
  let r := fst (VM.chat lib w req) in
  let tr := snd (VM.chat lib w req) in
  ((exists e, VM.content r = VM.Unhandled e)
   \/ VM.status r = 200 \/ VM.status r = 400 \/ VM.status r = 500)
  /\ (VM.status r = 400 -> tr = [])
  /\ ((exists e, VM.content r = VM.Unhandled e) -> tr = [])
  /\ (VM.status r = 200 ->
      exists p mt tp, tr = [Tokenize t p; Generate m mt tp; Decode t])
  /\ Forall (fun ev => match ev with
                       | Tokenize h _ | Decode h => h = t
                       | Generate h _ _ => h = m
                       end) tr.
Proof.
  intros Hm Ht.
  assert (Hcases :
            VM.chat lib w req = vm_no_prompt
            \/ (exists e, VM.chat lib w req = (VM.unhandled e, []))
            \/ (exists e p,
                   VM.chat lib w req
                   = ({| VM.status := 500; VM.content := VM.Failure e |},
                      [Tokenize t p]))
            \/ (exists e p mt tp,
                   VM.chat lib w req
                   = ({| VM.status := 500; VM.content := VM.Failure e |},
                      [Tokenize t p; Generate m mt tp]))
            \/ (exists r p mt tp,
                   VM.chat lib w req
                   = (r, [Tokenize t p; Generate m mt tp; Decode t])
                   /\ (VM.status r = 200 \/ VM.status r = 500)
                   /\ forall e, VM.content r <> VM.Unhandled e)).
  { destruct req as [data|e].
    2:{ right; left. exists e. unfold VM.chat. now rewrite Hm, Ht. }
    assert (Hobj : (exists kv, data = JObj kv) \/ forall kv, data <> JObj kv).
    { destruct data; try (right; discriminate). left. eauto. }
    destruct Hobj as [[kv ->]|Hno].
    - rewrite (vm_chat_object lib w m t kv Hm Ht).
      destruct (negb (truthy (vm_requested "prompt" (JStr []) kv)));
        [now left|].
      rewrite (vm_chat_try_cases lib w m t _ _ _ Hm Ht).
      destruct (tokenizer_encode lib t _) as [ids|e];
        [|right; right; left; eauto].
      destruct (model_generate lib m ids _ _) as [outs|e];
        [|right; right; right; left; eauto 6].
      right; right; right; right.
      destruct (tokenizer_decode lib t outs) as [g|e];
        [destruct (py_len _) as [n|e]|];
        eexists _, _, _, _; (split; [reflexivity|]); split; auto;
        discriminate.
    - right; left. exists AttributeError.
      now apply vm_chat_not_object with m t. }
  cbv zeta.
  destruct Hcases
    as [E|[(e & E)|[(e & p & E)|[(e & p & mt & tp & E)
                                |(r & p & mt & tp & E & Hs & Hu)]]]];
    rewrite E;
    cbn [fst snd vm_no_prompt VM.unhandled VM.status VM.content].
  - repeat split; eauto; try discriminate.
  - repeat split; eauto; try (destruct e; discriminate).
  - repeat split; eauto; try discriminate;
      try (intros [? ?]; discriminate); repeat constructor.
  - repeat split; eauto; try discriminate;
      try (intros [? ?]; discriminate); repeat constructor.
  - repeat split; eauto; try tauto;
      try (intros H; destruct Hs as [Hs|Hs]; rewrite Hs in H; discriminate);
      try (intros [e' He']; now destruct (Hu e'));
      repeat constructor.
Qed.

Lemma vm_chat_discipline_witness :
  let w := snd (VM.load_model None None VM.cold) in
  let req := Returns (JObj [(lit "prompt", JStr (lit "Once"))]) in
  exists p mt tp,
    snd (VM.chat (echo_library 1 (lit " more")) w req)
    = [Tokenize 0 p; Generate 0 mt tp; Decode 0].
Proof.
  intros w req.
  exact (proj1 (proj2 (proj2 (proj2
           (vm_chat_discipline (echo_library 1 (lit " more")) w 0 0 req
              eq_refl eq_refl)))) eq_refl).
Defined.

(* ================================================================== *)
(** * [/health] and [/debug/env] *)

Lemma thread_step_built (env : environ) (lo : load_outcome)
      (w w' : world) (p p' : pc) :
  thread_step env lo w p = Some (w', p') ->
  is_some (model w) = (0 <? models_built w) ->
  is_some (model w') = (0 <? models_built w').
Proof.
  destruct p; cbv beta iota delta [thread_step]; intros Hstep Hw;
    step_cases Hstep; simpl; auto;
    match goal with
    | E : model w = _ |- _ => (rewrite E; exact Hw) || (now rewrite E in Hw)
    end.
Qed.

(** X18. [/health] never errors, names the model, and under every schedule
    reports [model_loaded: true] exactly when some [load_model] call has
    built a model; at process start it reports [false]. *)
Theorem health_reports_built_model
        (env : environ) (n : nat) (sched : list choice) :
  let w := shared (run env sched (startup env n)) in
  health_check w = ok (Health MODEL_NAME (0 <? models_built w))
  /\ health_check (shared (startup env n)) = ok (Health MODEL_NAME false).
Proof.
  intros w. split; [|reflexivity].
  assert (H : is_some (model w) = (0 <? models_built w)).
  { unfold w.
    apply (run_invariant env
             (fun c => is_some (model (shared c))
                       = (0 <? models_built (shared c)))); [|reflexivity].
    intros ch c H. unfold sys_step.
    destruct (nth_error (threads c) (fst ch)) as [p|]; [|exact H].
    destruct (thread_step env (snd ch) (shared c) p) as [[w' p']|] eqn:Hstep;
      [|exact H].
    simpl. now apply thread_step_built with env (snd ch) (shared c) p p'. }
  unfold health_check. rewrite <- H. now destruct (model w).
Qed.

Lemma mask_has_dot (t : pystr) : In dot (mask t).
Proof.
  unfold mask. apply in_or_app. right. apply in_or_app. left.
  simpl. auto.
Qed.

(** X19. Which credential [/debug/env] looks at. A non-empty [HF_TOKEN] is the
    one masked, whatever [HUGGINGFACE_HUB_TOKEN] holds; otherwise the latter
    is used. The masked field is ["NOT SET"] exactly when neither is a
    non-empty string, and an empty [HUGGINGFACE_HUB_TOKEN] is then still
    reported as configured. The port is echoed, ["not set"] when absent. *)
Theorem debug_env_credential_choice (env : environ) :
  (forall c t, HF_TOKEN env = Some (c :: t) ->
               content (debug_env env)
               = DebugEnv true (mask (c :: t))
                          (match PORT env with
                           | Some p => p
                           | None => lit "not set"
                           end))
  /\ (HF_TOKEN env = None \/ HF_TOKEN env = Some [] ->
      forall c t, HUGGINGFACE_HUB_TOKEN env = Some (c :: t) ->
                  content (debug_env env)
                  = DebugEnv true (mask (c :: t))
                             (match PORT env with
                              | Some p => p
                              | None => lit "not set"
                              end))
  /\ (forall configured masked port,
         content (debug_env env) = DebugEnv configured masked port ->
         (masked = lit "NOT SET" <-> str_truthy (hf_token env) = false)
         /\ (configured = true /\ masked = lit "NOT SET"
             <-> (HF_TOKEN env = None \/ HF_TOKEN env = Some [])
                 /\ HUGGINGFACE_HUB_TOKEN env = Some []))
  /\ status (debug_env env) = 200.
Proof.
  unfold debug_env, hf_token, py_or, ok. cbn [content status].
  split; [|split; [|split; [|reflexivity]]].
  - intros c t ->. reflexivity.
  - intros [-> | ->] c t ->; reflexivity.
  - intros configured masked port.
    assert (Hdot : forall t, mask t <> lit "NOT SET").
    { intros t E. pose proof (mask_has_dot t) as Hin. rewrite E in Hin.
      cbv in Hin. intuition discriminate. }
    destruct (HF_TOKEN env) as [[|c t]|];
      destruct (HUGGINGFACE_HUB_TOKEN env) as [[|c' t']|];
      intros [= <- <- _]; cbn [str_truthy];
      (split; [split|split]);
      try reflexivity; try discriminate; try tauto;
      try (intros E; now destruct (Hdot _ E));
      try (intros [_ E]; now destruct (Hdot _ E));
      try (intros [[E|E] E']; discriminate);
      try (intros [E _]; discriminate);
      intuition (try discriminate; auto).
Qed.

Lemma debug_env_credential_choice_witness :
  let env := {| HF_TOKEN := Some [];
                HUGGINGFACE_HUB_TOKEN := Some (lit "hf_fallbacktoken");
                PORT := Some (lit "8080");
                MODEL_CACHE_DIR := None;
                EAGER_LOAD := false |} in
  content (debug_env env)
  = DebugEnv true (lit "hf_f...oken") (lit "8080").
Proof.
  intros env.
  exact (proj1 (proj2 (debug_env_credential_choice env))
               (or_intror eq_refl) _ _ eq_refl).
Defined.

(* ================================================================== *)
(** * The build-time download: [llm-api/download_model.py] *)

Module Download.

Definition MODEL_NAME : pystr := lit "PleIAs/Pleias-350m-Preview".
Definition MODEL_CACHE_DIR : pystr := lit "/app/model_cache".

(** The calls [download_model] makes, with the arguments that vary. *)
Inductive call : Type :=
| Login (token : pystr)
| FetchTokenizer (name : pystr) (token : option pystr) (cache_dir : pystr)
| FetchModel (name : pystr) (token : option pystr) (cache_dir : pystr)
| ListDir (dir : pystr).

(** What each call does: [None] returns, [Some e] raises [e]. *)
Record outcome : Type := {
  login_raises : option exn;
  tokenizer_raises : option exn;
  model_raises : option exn;
  listdir_raises : option exn
}.

(** Lines 19-36, after the optional login. Nothing is caught. *)
Definition fetch (hf_token : option pystr) (o : outcome) (made : list call)
  : call_result unit * list call :=
  let made1 := made ++ [FetchTokenizer MODEL_NAME hf_token MODEL_CACHE_DIR] in
  match tokenizer_raises o with
  | Some e => (Raises e, made1)
  | None =>
      let made2 := made1 ++ [FetchModel MODEL_NAME hf_token MODEL_CACHE_DIR] in
      match model_raises o with
      | Some e => (Raises e, made2)
      | None =>
          let made3 := made2 ++ [ListDir MODEL_CACHE_DIR] in
          match listdir_raises o with
          | Some e => (Raises e, made3)
          | None => (Returns tt, made3)
          end
      end
  end.

(** [download_model()] *)
Definition download_model (env : Serverless.environ) (o : outcome)
  : call_result unit * list call :=
  let hf_token := Serverless.HF_TOKEN env in
  match hf_token with
  | Some (c :: t) =>
      match login_raises o with
      | Some e => (Raises e, [Login (c :: t)])
      | None => fetch hf_token o [Login (c :: t)]
      end
  | _ => fetch hf_token o []
  end.

Definition is_login (c : call) : bool :=
  match c with
  | Login _ => true
  | _ => false
  end.

End Download.

(** X20. The download and the server do not pick the credential alike.
    [download_model] logs in exactly when [HF_TOKEN] is a non-empty string
    and never looks at [HUGGINGFACE_HUB_TOKEN]; [load_model] falls back on
    it. So with only [HUGGINGFACE_HUB_TOKEN] set the server's load goes
    through the login of lines 70-72 and the download makes no login call.
    Either way the download fetches the tokenizer before the model, both
    into [/app/model_cache], and returns normally only after listing that
    directory. *)
Theorem download_credential_differs
        (env : environ) (o : Download.outcome) (lo : load_outcome)
        (w : world) (fr : frame) :
  (existsb Download.is_login (snd (Download.download_model env o))
   = str_truthy (HF_TOKEN env))
  /\ (HF_TOKEN env = None \/ HF_TOKEN env = Some [] ->
      str_truthy (HUGGINGFACE_HUB_TOKEN env) = true ->
      existsb Download.is_login (snd (Download.download_model env o)) = false
      /\ exists w', thread_step env lo w (Load_entry fr)
                    = Some (w', Load_login fr))
  /\ (fst (Download.download_model env o) = Returns tt ->
      exists made,
        snd (Download.download_model env o)
        = made
          ++ [Download.FetchTokenizer Download.MODEL_NAME (HF_TOKEN env)
                                      Download.MODEL_CACHE_DIR;
              Download.FetchModel Download.MODEL_NAME (HF_TOKEN env)
                                  Download.MODEL_CACHE_DIR;
              Download.ListDir Download.MODEL_CACHE_DIR]
        /\ (made = [] \/ exists t, made = [Download.Login t]
                                   /\ HF_TOKEN env = Some t)).
Proof.
  unfold Download.download_model, Download.fetch.
  split; [|split].
  - destruct (HF_TOKEN env) as [[|c t]|];
      destruct (Download.login_raises o), (Download.tokenizer_raises o),
        (Download.model_raises o), (Download.listdir_raises o);
      reflexivity.
  - intros Hhf Hhub. split.
    + destruct Hhf as [-> | ->];
        destruct (Download.tokenizer_raises o), (Download.model_raises o),
          (Download.listdir_raises o); reflexivity.
    + cbv beta iota delta [thread_step]. unfold hf_token, py_or.
      destruct Hhf as [-> | ->]; rewrite Hhub; eexists; reflexivity.
  - destruct (HF_TOKEN env) as [[|c t]|];
      destruct (Download.login_raises o), (Download.tokenizer_raises o),
        (Download.model_raises o), (Download.listdir_raises o);
      cbn; try discriminate; intros _;
      first [ exists []; split; [reflexivity|now left]
            | exists [Download.Login (c :: t)]; split; [reflexivity|];
              right; eauto ].
Qed.

Lemma download_credential_differs_witness :
  let env := {| HF_TOKEN := None;
                HUGGINGFACE_HUB_TOKEN := Some (lit "hf_onlythisone");
                PORT := None; MODEL_CACHE_DIR := None;
                EAGER_LOAD := false |} in
  let o := {| Download.login_raises := None;
              Download.tokenizer_raises := None;
              Download.model_raises := None;
              Download.listdir_raises := None |} in
  existsb Download.is_login (snd (Download.download_model env o)) = false
  /\ exists w', thread_step env all_succeed cold
                            (Load_entry (enter_load FromGetModel))
                = Some (w', Load_login (enter_load FromGetModel)).
Proof.
  intros env o.
  exact (proj1 (proj2
           (download_credential_differs env o all_succeed cold
              (enter_load FromGetModel)))
           (or_introl eq_refl) eq_refl).
Defined.

(* ================================================================== *)
(** * Serving after a load *)

(** X21. Cold start. The first request served on a cold process runs
    [load_model] once, whatever the request is (the handler is given the
    pair only afterwards), and leaves a store on which every later request
    is served with that same pair without loading again, even if the library
    would now fail. *)
Theorem first_request_loads_once
        (env : environ)
        (handler : call_result handles -> call_result json ->
                   response * list event)
        (req req' : call_result json) (lo : load_outcome) (fuel : nat) :
  exists w1,
    serve handler env all_succeed 10 cold req
    = Some (handler (Returns (Some 0, Some 0)) req, w1)
    /\ load_calls w1 = 1 /\ models_built w1 = 1
    /\ model_loading w1 = false
    /\ serve handler env lo (3 + fuel) w1 req'
       = Some (handler (Returns (Some 0, Some 0)) req', w1).
Proof.
  unfold serve, get_model.
  destruct (environ_cases env) as [E|E];
    rewrite !(run_thread_token_only _ _ E);
    eexists; (split; [reflexivity|]); repeat (split; [reflexivity|]);
    match goal with
    | |- context [run_thread ?e lo (3 + fuel) ?w GetModel_entry] =>
        change (run_thread e lo (3 + fuel) w GetModel_entry)
          with (get_model e lo (3 + fuel) w);
        rewrite (get_model_ready e lo fuel w 0 0 eq_refl eq_refl)
    end; reflexivity.
Qed.

(** X22. After a background load that failed nobody is ever served. With [n]
    callers arriving afterwards, under every schedule: no call to
    [get_model()] finishes, by return or by raise; [load_model] is not
    entered again; and [/health] keeps reporting that no model is loaded. *)
Theorem nobody_served_after_failed_background_load
        (env : environ) (lo : load_outcome) (n : nat) (sched : list choice) :
  first_failure env lo <> None ->
  let c := run env sched
               {| shared := load_model_background env lo cold;
                  threads := Background_finished :: repeat GetModel_entry n |} in
  Forall (fun p => match p with
                   | Finished _ => False
                   | _ => True
                   end) (threads c)
  /\ Forall (fun p => in_load p = false) (threads c)
  /\ load_calls (shared c) = 1
  /\ health_check (shared c) = ok (Health MODEL_NAME false).
Proof.
  intros Hfail c.
  destruct (background_load_store env lo) as (Hl & Hc & Hm).
  destruct (first_failure env lo) as [e|]; [|congruence].
  set (w0 := load_model_background env lo cold) in *.
  assert (Hinv : shared c = w0
                 /\ Forall (fun p => before_load p = true
                                     \/ p = Background_finished) (threads c)).
  { unfold c.
    apply (run_invariant env
             (fun c => shared c = w0
                       /\ Forall (fun p => before_load p = true
                                           \/ p = Background_finished)
                                 (threads c))).
    - intros ch c0 [Hw Hts]. unfold sys_step.
      destruct (nth_error (threads c0) (fst ch)) as [p|] eqn:Hnth;
        [|now split].
      destruct (thread_step env (snd ch) (shared c0) p) as [[w' p']|] eqn:Hstep;
        [|now split].
      pose proof (Forall_nth_error _ _ _ _ Hts Hnth) as Hp. cbv beta in Hp.
      rewrite Hw in Hstep.
      assert (Hstep' : w' = w0 /\ before_load p' = true).
      { destruct Hp as [Hp| ->]; [|discriminate].
        destruct p; try discriminate;
          cbv beta iota delta [thread_step] in Hstep;
          rewrite ?Hm, ?Hl in Hstep; injection Hstep as <- <-; now split. }
      destruct Hstep' as [-> Hp']. split; [reflexivity|].
      apply Forall_set_nth; [exact Hts|now left].
    - split; [reflexivity|]. constructor; [now right|].
      apply Forall_forall. intros p Hp. apply repeat_spec in Hp.
      subst p. now left. }
  destruct Hinv as [Hw Hts]. rewrite Hw.
  split; [|split; [|split]].
  - eapply Forall_impl; [|exact Hts].
    intros p [Hp| ->]; [|exact I]. now destruct p.
  - eapply Forall_impl; [|exact Hts].
    intros p [Hp| ->]; [|reflexivity]. now destruct p.
  - exact Hc.
  - unfold health_check. now rewrite Hm.
Qed.

Lemma nobody_served_after_failed_background_load_witness :
  let c := run bare_environ
               [(1, all_succeed); (2, all_succeed); (1, all_succeed);
                (1, all_succeed); (1, all_succeed); (1, all_succeed)]
               {| shared := load_model_background bare_environ model_fails cold;
                  threads := Background_finished :: repeat GetModel_entry 2 |} in
  Forall (fun p => match p with
                   | Finished _ => False
                   | _ => True
                   end) (threads c)
  /\ Forall (fun p => in_load p = false) (threads c)
  /\ load_calls (shared c) = 1
  /\ health_check (shared c) = ok (Health MODEL_NAME false).
Proof.
  apply (nobody_served_after_failed_background_load bare_environ model_fails 2).
  discriminate.
Defined.
